(** * The speech-synthesis API router of voicevox_engine

    A shallow embedding of [voicevox_engine/app/routers/tts_pipeline.py]:
    the endpoints built by [generate_tts_pipeline_router] as functions in a
    state-and-exception monad over the collaborators the router is given
    ([get_engine], [get_core], [preset_manager], [cancellable_engine]). *)

From Stdlib Require Import ZArith NArith List String Ascii Bool Lia PrimFloat.
From Stdlib Require Import DecimalPos FinFun.

#[local] Set Warnings "-inexact-float".
Local Open Scope float_scope.
Import ListNotations.
Local Open Scope Z_scope.

(** ** Python strings *)

Module PyStr.

(** A Python [str] is a sequence of Unicode code points. *)
Definition str := list N.

(** Reads the code points out of UTF-8 bytes, so that string literals of the
    source can be written as they stand there. *)
Fixpoint utf8_decode (fuel : nat) (bs : list N) : str :=
  match fuel with
  | O => []
  | S fuel' =>
      match bs with
      | [] => []
      | b0 :: r0 =>
          if (b0 <? 128)%N then b0 :: utf8_decode fuel' r0
          else if (b0 <? 224)%N then
            match r0 with
            | b1 :: r1 =>
                ((b0 - 192) * 64 + (b1 - 128))%N :: utf8_decode fuel' r1
            | _ => []
            end
          else if (b0 <? 240)%N then
            match r0 with
            | b1 :: b2 :: r2 =>
                ((b0 - 224) * 4096 + (b1 - 128) * 64 + (b2 - 128))%N
                  :: utf8_decode fuel' r2
            | _ => []
            end
          else
            match r0 with
            | b1 :: b2 :: b3 :: r3 =>
                ((b0 - 240) * 262144 + (b1 - 128) * 4096
                 + (b2 - 128) * 64 + (b3 - 128))%N
                  :: utf8_decode fuel' r3
            | _ => []
            end
      end
  end.

Definition py (s : string) : str :=
  let bs := map N_of_ascii (list_ascii_of_string s) in
  utf8_decode (List.length bs) bs.

Definition str_eqb (a b : str) : bool :=
  if list_eq_dec N.eq_dec a b then true else false.

(** Whether [p] is a prefix of [s], and what follows it ([s.startswith(p)]
    and [s[len(p):]]). *)
Fixpoint strip_prefix (p s : str) : option str :=
  match p, s with
  | [], _ => Some s
  | c :: p', d :: s' => if (c =? d)%N then strip_prefix p' s' else None
  | _ :: _, [] => None
  end.

Definition digit_char (d : N) : N := (48 + d)%N.

Fixpoint uint_digits (d : Decimal.uint) : str :=
  match d with
  | Decimal.Nil => []
  | Decimal.D0 r => digit_char 0 :: uint_digits r
  | Decimal.D1 r => digit_char 1 :: uint_digits r
  | Decimal.D2 r => digit_char 2 :: uint_digits r
  | Decimal.D3 r => digit_char 3 :: uint_digits r
  | Decimal.D4 r => digit_char 4 :: uint_digits r
  | Decimal.D5 r => digit_char 5 :: uint_digits r
  | Decimal.D6 r => digit_char 6 :: uint_digits r
  | Decimal.D7 r => digit_char 7 :: uint_digits r
  | Decimal.D8 r => digit_char 8 :: uint_digits r
  | Decimal.D9 r => digit_char 9 :: uint_digits r
  end.

(** [str(n)] for an [int]. *)
Definition str_of_int (n : Z) : str :=
  match Z.to_int n with
  | Decimal.Pos d => uint_digits d
  | Decimal.Neg d => 45%N :: uint_digits d
  end.

(** [s.zfill(width)]: zeros are inserted after a leading sign. *)
Definition zfill (width : nat) (s : str) : str :=
  let pad := repeat (digit_char 0) (width - List.length s) in
  match s with
  | c :: r => if ((c =? 43) || (c =? 45))%N then c :: pad ++ r else pad ++ s
  | [] => pad
  end.

Definition is_digit (c : N) : bool := ((48 <=? c) && (c <=? 57))%N.

End PyStr.
Export PyStr.

(** ** The data model *)

Definition StyleId := Z.

(** Samples of a waveform (a numpy array in the source). *)
Definition Wave := list float.

Module Model.

(** Modelled from the spec: the classes [Mora], [AccentPhrase] and
    [AudioQuery] of [voicevox_engine.model], which the router imports; the
    fields of [AudioQuery] are those its constructor is called with. *)
Record Mora := {
  text : str;
  consonant : option str;
  consonant_length : option float;
  vowel : str;
  vowel_length : float;
  pitch : float
}.

Record AccentPhrase := {
  moras : list Mora;
  accent : nat;
  pause_mora : option Mora;
  is_interrogative : bool
}.

Record AudioQuery := {
  accent_phrases : list AccentPhrase;
  speedScale : float;
  pitchScale : float;
  intonationScale : float;
  volumeScale : float;
  prePhonemeLength : float;
  postPhonemeLength : float;
  outputSamplingRate : Z;
  outputStereo : bool;
  kana : str
}.

(** Modelled from the spec: [ParseKanaError], the exception of the notation
    grammar, as the closed set of tagged variants of the specification. *)
Inductive GrammarErrorKind :=
| MissingAccentNucleus
| MultipleAccentNuclei
| UnknownMoraToken (fragment : str) (offset : nat)
| EmptySegment.

Record GrammarError := {
  kind : GrammarErrorKind;
  position : nat
}.

End Model.
Import Model.

Module Preset.

(** Modelled from the spec: [voicevox_engine.preset.Preset], with the
    attributes the router reads. *)
Record t := {
  id : Z;
  style_id : StyleId;
  speedScale : float;
  pitchScale : float;
  intonationScale : float;
  volumeScale : float;
  prePhonemeLength : float;
  postPhonemeLength : float
}.

End Preset.

(** ** Exceptions and responses *)

(** The [detail] of an [HTTPException]: a literal message, [str(err)] of a
    caught error, or [ParseKanaBadRequest(err).dict()].

    Modelled from the spec: [ParseKanaBadRequest] of [voicevox_engine.model],
    the response body that carries a grammar error's kind, fragment and
    position; it is represented by the error it is built from. *)
Inductive Detail :=
| DetailText (message : str)
| DetailParseKanaBadRequest (err : GrammarError).

Inductive exn :=
| HTTPException (status_code : Z) (detail : Detail)
| ParseKanaError (err : GrammarError)
| PresetError (message : str)
| ConnectBase64WavesException (message : str)
| IndexError
| BackendError (message : str).

(** What a response file holds.  A WAV file is what [soundfile.write] was
    given; the temporary file a handler writes is represented by what was
    written into it, a ZIP archive by its entries in the order they were
    written; [FileAt] is a file some collaborator wrote. *)
Record Wav := {
  data : Wave;
  samplerate : Z
}.

Inductive FileBody :=
| WavFile (content : Wav)
| ZipFile (entries : list (str * Wav))
| FileAt (path : str).

Record FileResponse := {
  body : FileBody;
  media_type : str
}.

(** ** The monad of the handlers *)

Section Monad.

Context {World : Type}.

(** A handler runs in the state of its collaborators and either returns or
    raises. *)
Definition M (A : Type) : Type := World -> (exn + A) * World.

Definition ret {A} (x : A) : M A := fun w => (inr x, w).

Definition raise {A} (e : exn) : M A := fun w => (inl e, w).

Definition bind {A B} (c : M A) (k : A -> M B) : M B :=
  fun w =>
    match c w with
    | (inr x, w') => k x w'
    | (inl e, w') => (inl e, w')
    end.

(** [try: c  except ...: h]; [h] says which exceptions the clause catches. *)
Definition try_except {A} (c : M A) (h : exn -> option (M A)) : M A :=
  fun w =>
    match c w with
    | (inr x, w') => (inr x, w')
    | (inl e, w') =>
        match h e with
        | Some k => k w'
        | None => (inl e, w')
        end
    end.

End Monad.

Arguments M : clear implicits.

Declare Scope monad_scope.
Delimit Scope monad_scope with monad.
Notation "x <- c ;; k" := (bind c (fun x => k))
  (at level 61, c at next level, right associativity) : monad_scope.
Local Open Scope monad_scope.

Section Python.

Context {World : Type}.

(** [l[i]] *)
Definition getitem {A} (l : list A) (i : nat) : M World A :=
  match nth_error l i with
  | Some x => ret x
  | None => raise IndexError
  end.

(** [range(n)] *)
Definition range (n : nat) : list nat := seq 0 n.

(** [for i in items: body], the loop's variables passed along. *)
Fixpoint for_ {I S} (items : list I) (body : I -> S -> M World S) (s : S)
  : M World S :=
  match items with
  | [] => ret s
  | i :: rest => s' <- body i s ;; for_ rest body s'
  end.

End Python.

(** ** Collaborators *)

(** Modelled from the spec: [TTSEngine], [CoreAdapter], [PresetManager] and
    [CancellableEngine] are classes outside the router; each is the record
    of the methods and attributes the router uses, and a method may raise.
    An argument the router leaves to the method's default is [None]. *)
Record TTSEngine (World : Type) := {
  create_accent_phrases : str -> StyleId -> M World (list AccentPhrase);
  create_accent_phrases_from_kana :
    str -> StyleId -> M World (list AccentPhrase);
  update_length_and_pitch :
    list AccentPhrase -> StyleId -> M World (list AccentPhrase);
  update_length : list AccentPhrase -> StyleId -> M World (list AccentPhrase);
  update_pitch : list AccentPhrase -> StyleId -> M World (list AccentPhrase);
  synthesize_wave : AudioQuery -> StyleId -> option bool -> M World Wave
}.

Arguments create_accent_phrases {World}.
Arguments create_accent_phrases_from_kana {World}.
Arguments update_length_and_pitch {World}.
Arguments update_length {World}.
Arguments update_pitch {World}.
Arguments synthesize_wave {World}.

Record CoreAdapter := {
  default_sampling_rate : Z
}.

Record PresetManager (World : Type) := {
  load_presets : M World (list Preset.t)
}.

Arguments load_presets {World}.

Record CancellableEngine (World Request : Type) := {
  _synthesis_impl :
    AudioQuery -> StyleId -> Request -> option str -> M World str
}.

Arguments _synthesis_impl {World Request}.

(** ** The router *)

Module Router.

Section generate_tts_pipeline_router.

Context {World Request : Type}.

(** The arguments of [generate_tts_pipeline_router]. *)
Variable get_engine : option str -> M World (TTSEngine World).
Variable get_core : option str -> M World CoreAdapter.
Variable preset_manager : PresetManager World.
Variable cancellable_engine : option (CancellableEngine World Request).

(** The functions the module imports: [create_kana] and [parse_kana] of
    [tts_pipeline.kana_converter], and [connect_base64_waves]; the last two
    raise [ParseKanaError] and [ConnectBase64WavesException]. *)
Variable create_kana : list AccentPhrase -> str.
Variable parse_kana : str -> GrammarError + list AccentPhrase.
Variable connect_base64_waves : list str -> str + Wave * Z.

Definition audio_query (text : str) (style_id : StyleId)
    (core_version : option str) : M World AudioQuery :=
  engine <- get_engine core_version ;;
  core <- get_core core_version ;;
  accent_phrases <- create_accent_phrases engine text style_id ;;
  ret {| accent_phrases := accent_phrases;
         speedScale := 1;
         pitchScale := 0;
         intonationScale := 1;
         volumeScale := 1;
         prePhonemeLength := 0.1;
         postPhonemeLength := 0.1;
         outputSamplingRate := default_sampling_rate core;
         outputStereo := false;
         kana := create_kana accent_phrases |}.

(** The [for ... else] over the presets: the first preset with the id. *)
Fixpoint select_preset (presets : list Preset.t) (preset_id : Z)
  : M World Preset.t :=
  match presets with
  | preset :: rest =>
      if Preset.id preset =? preset_id then ret preset
      else select_preset rest preset_id
  | [] =>
      raise (HTTPException 422
               (DetailText (py "該当するプリセットIDが見つかりません")))
  end.

Definition audio_query_from_preset (text : str) (preset_id : Z)
    (core_version : option str) : M World AudioQuery :=
  engine <- get_engine core_version ;;
  core <- get_core core_version ;;
  presets <-
    try_except (load_presets preset_manager)
      (fun err =>
         match err with
         | PresetError message =>
             Some (raise (HTTPException 422 (DetailText message)))
         | _ => None
         end) ;;
  selected_preset <- select_preset presets preset_id ;;
  accent_phrases <-
    create_accent_phrases engine text (Preset.style_id selected_preset) ;;
  ret {| accent_phrases := accent_phrases;
         speedScale := Preset.speedScale selected_preset;
         pitchScale := Preset.pitchScale selected_preset;
         intonationScale := Preset.intonationScale selected_preset;
         volumeScale := Preset.volumeScale selected_preset;
         prePhonemeLength := Preset.prePhonemeLength selected_preset;
         postPhonemeLength := Preset.postPhonemeLength selected_preset;
         outputSamplingRate := default_sampling_rate core;
         outputStereo := false;
         kana := create_kana accent_phrases |}.

(** [except ParseKanaError as err] of [accent_phrases] and
    [validate_kana]. *)
Definition except_ParseKanaError {A} (err : exn) : option (M World A) :=
  match err with
  | ParseKanaError err =>
      Some (raise (HTTPException 400 (DetailParseKanaBadRequest err)))
  | _ => None
  end.

Definition accent_phrases (text : str) (style_id : StyleId) (is_kana : bool)
    (core_version : option str) : M World (list AccentPhrase) :=
  engine <- get_engine core_version ;;
  if is_kana then
    try_except (create_accent_phrases_from_kana engine text style_id)
      except_ParseKanaError
  else create_accent_phrases engine text style_id.

Definition mora_data (accent_phrases : list AccentPhrase)
    (style_id : StyleId) (core_version : option str)
  : M World (list AccentPhrase) :=
  engine <- get_engine core_version ;;
  update_length_and_pitch engine accent_phrases style_id.

Definition mora_length (accent_phrases : list AccentPhrase)
    (style_id : StyleId) (core_version : option str)
  : M World (list AccentPhrase) :=
  engine <- get_engine core_version ;;
  update_length engine accent_phrases style_id.

Definition mora_pitch (accent_phrases : list AccentPhrase)
    (style_id : StyleId) (core_version : option str)
  : M World (list AccentPhrase) :=
  engine <- get_engine core_version ;;
  update_pitch engine accent_phrases style_id.

Definition synthesis (query : AudioQuery) (style_id : StyleId)
    (enable_interrogative_upspeak : bool) (core_version : option str)
  : M World FileResponse :=
  engine <- get_engine core_version ;;
  wave <-
    synthesize_wave engine query style_id
      (Some enable_interrogative_upspeak) ;;
  let f := {| data := wave; samplerate := outputSamplingRate query |} in
  ret {| body := WavFile f; media_type := py "audio/wav" |}.

Definition cancellable_synthesis (query : AudioQuery) (request : Request)
    (style_id : StyleId) (core_version : option str) : M World FileResponse :=
  match cancellable_engine with
  | None =>
      raise (HTTPException 404
               (DetailText (py "実験的機能はデフォルトで無効になっています。使用するには引数を指定してください。")))
  | Some cancellable_engine =>
      f_name <-
        _synthesis_impl cancellable_engine query style_id request
          core_version ;;
      if str_eqb f_name (py "") then
        raise (HTTPException 422 (DetailText (py "不明なバージョンです")))
      else ret {| body := FileAt f_name; media_type := py "audio/wav" |}
  end.

(** The body of the loop of [multi_synthesis]; [zip_file] is the archive
    written so far. *)
Definition multi_synthesis_step (engine : TTSEngine World)
    (queries : list AudioQuery) (style_id : StyleId) (sampling_rate : Z)
    (i : nat) (zip_file : list (str * Wav)) : M World (list (str * Wav)) :=
  query <- getitem queries i ;;
  if negb (outputSamplingRate query =? sampling_rate) then
    raise (HTTPException 422
             (DetailText (py "サンプリングレートが異なるクエリがあります")))
  else
    query <- getitem queries i ;;
    wave <- synthesize_wave engine query style_id None ;;
    let wav_file := {| data := wave; samplerate := sampling_rate |} in
    ret (zip_file
           ++ [(zfill 3 (str_of_int (Z.of_nat i + 1)) ++ py ".wav",
                wav_file)]).

Definition multi_synthesis (queries : list AudioQuery) (style_id : StyleId)
    (core_version : option str) : M World FileResponse :=
  engine <- get_engine core_version ;;
  query <- getitem queries 0 ;;
  let sampling_rate := outputSamplingRate query in
  zip_file <-
    for_ (range (List.length queries))
      (multi_synthesis_step engine queries style_id sampling_rate) [] ;;
  ret {| body := ZipFile zip_file; media_type := py "application/zip" |}.

Definition connect_waves (waves : list str) : M World FileResponse :=
  r <-
    try_except
      (match connect_base64_waves waves with
       | inr r => ret r
       | inl message => raise (ConnectBase64WavesException message)
       end)
      (fun err =>
         match err with
         | ConnectBase64WavesException message =>
             Some (raise (HTTPException 422 (DetailText message)))
         | _ => None
         end) ;;
  let '(waves_nparray, sampling_rate) := r in
  let f := {| data := waves_nparray; samplerate := sampling_rate |} in
  ret {| body := WavFile f; media_type := py "audio/wav" |}.

Definition validate_kana (text : str) : M World bool :=
  try_except
    (match parse_kana text with
     | inr _ => ret true
     | inl err => raise (ParseKanaError err)
     end)
    except_ParseKanaError.

End generate_tts_pipeline_router.

End Router.

(** ** Joining waveforms *)

Module ConnectBase64Waves.

Section connect_base64_waves.

(** The decode step: the samples and the sampling rate a base64-encoded WAV
    input carries. *)
Variable decode_wave : str -> Wave * Z.

(** The sampling rate reported when there is no input at all, which the
    specification leaves open. *)
Variable rate_of_nothing : Z.

(** The message of the exception raised for inputs of different rates. *)
Definition SampleRateMismatch : str := py "SampleRateMismatch".

(** Modelled from the spec: [connect_base64_waves] of
    [voicevox_engine.utility.connect_base64_waves], which the router calls and
    whose source is not among the files embedded here.  It decodes every
    input, fails with [SampleRateMismatch] if the inputs carry different
    sampling rates, and otherwise concatenates the samples in input order,
    with no gap. *)
Definition connect_base64_waves (waves : list str) : str + Wave * Z :=
  let decoded := map decode_wave waves in
  match decoded with
  | [] => inr ([], rate_of_nothing)
  | (_, sampling_rate) :: _ =>
      if forallb (fun d => snd d =? sampling_rate) decoded
      then inr (List.concat (map fst decoded), sampling_rate)
      else inl SampleRateMismatch
  end.

End connect_base64_waves.

End ConnectBase64Waves.

(** ** The phonetic notation *)

Module KanaConverter.

(** The marker characters of the notation, as the documentation of the
    [accent_phrases] endpoint lists them. *)
Definition UNVOICE_SYMBOL : N := 95.            (* _ *)
Definition ACCENT_SYMBOL : N := 39.             (* ' *)
Definition NOPAUSE_DELIMITER : N := 47.         (* / *)
Definition PAUSE_DELIMITER : N := 12289.        (* the ideographic comma *)
Definition WIDE_INTERROGATION_MARK : N := 65311. (* the full-width ? *)

(** The pitch of an unvoiced mora. *)
Definition UNVOICED_PITCH : float := 0.

Definition is_unvoiced (m : Mora) : bool :=
  PrimFloat.eqb (pitch m) UNVOICED_PITCH.

Definition unvoice (m : Mora) : Mora :=
  {| text := text m;
     consonant := consonant m;
     consonant_length := consonant_length m;
     vowel := vowel m;
     vowel_length := vowel_length m;
     pitch := UNVOICED_PITCH |}.

(** A segment of the input with the offset it starts at and whether the
    paused delimiter follows it. *)
Record Segment := {
  seg_offset : nat;
  seg_text : str;
  seg_paused : bool
}.

(** Cuts the input at the two delimiters; [cur] is the segment read so far,
    which started at [start], and [pos] the offset of [input]. *)
Fixpoint split_segments (input : str) (start pos : nat) (cur : str)
  : list Segment :=
  match input with
  | [] => [{| seg_offset := start; seg_text := cur; seg_paused := false |}]
  | c :: rest =>
      if (c =? NOPAUSE_DELIMITER)%N then
        {| seg_offset := start; seg_text := cur; seg_paused := false |}
          :: split_segments rest (S pos) (S pos) []
      else if (c =? PAUSE_DELIMITER)%N then
        {| seg_offset := start; seg_text := cur; seg_paused := true |}
          :: split_segments rest (S pos) (S pos) []
      else split_segments rest start (S pos) (cur ++ [c])
  end.


(** Takes the interrogative marker off the end of a segment. *)
Definition strip_interrogative (s : str) : str * bool :=
  match rev s with
  | c :: r =>
      if (c =? WIDE_INTERROGATION_MARK)%N then (rev r, true) else (s, false)
  | [] => (s, false)
  end.

Section Grammar.

(** The known morae, each under its katakana [text]. *)
Variable known_moras : list Mora.

(** The silence appended to a phrase that the paused delimiter follows. *)
Variable pause : Mora.

(** Known-kana lookup: the known mora with the longest text that [input]
    starts with (the first one among equals).  A mora is unvoiced by its
    marker only, and its pitch is that of an unvoiced mora if and only if
    it is unvoiced: an entry that has this pitch, like one that has no
    text, is no mora token and is passed over. *)
Fixpoint longest_match (candidates : list Mora) (input : str)
  : option Mora :=
  match candidates with
  | [] => None
  | m :: rest =>
      let other := longest_match rest input in
      if is_unvoiced m then other
      else
        match text m, strip_prefix (text m) input with
        | _ :: _, Some _ =>
            match other with
            | Some m' =>
                if (List.length (text m) <? List.length (text m'))%nat
                then Some m' else Some m
            | None => Some m
            end
        | _, _ => other
        end
  end.

(** The scanner of one segment: the morae read so far, the position of the
    accent nucleus if its marker was read, whether an unvoicing marker
    waits for its mora, and how many characters of the mora just read are
    still to be passed over. *)
Record ScanState := {
  st_moras : list Mora;
  st_accent : option nat;
  st_unvoice : bool;
  st_skip : nat
}.

Definition unknown_token (input : str) (pos : nat) : GrammarError :=
  {| kind := UnknownMoraToken input pos; position := pos |}.

Fixpoint scan (input : str) (pos : nat) (seg_start : nat) (st : ScanState)
  : GrammarError + list Mora * nat :=
  match input with
  | [] =>
      if st_unvoice st then inl (unknown_token [] pos)
      else
        match st_moras st, st_accent st with
        | [], _ => inl {| kind := EmptySegment; position := seg_start |}
        | _ :: _, None =>
            inl {| kind := MissingAccentNucleus; position := seg_start |}
        | _ :: _, Some a => inr (st_moras st, a)
        end
  | c :: rest =>
      match st_skip st with
      | S k =>
          scan rest (S pos) seg_start
            {| st_moras := st_moras st; st_accent := st_accent st;
               st_unvoice := st_unvoice st; st_skip := k |}
      | O =>
          if (c =? UNVOICE_SYMBOL)%N then
            if st_unvoice st then inl (unknown_token input pos)
            else
              scan rest (S pos) seg_start
                {| st_moras := st_moras st; st_accent := st_accent st;
                   st_unvoice := true; st_skip := 0 |}
          else if (c =? ACCENT_SYMBOL)%N then
            if st_unvoice st then inl (unknown_token input pos)
            else
              match st_moras st, st_accent st with
              | [], _ => inl (unknown_token input pos)
              | _ :: _, Some _ =>
                  inl {| kind := MultipleAccentNuclei;
                         position := seg_start |}
              | _ :: _, None =>
                  scan rest (S pos) seg_start
                    {| st_moras := st_moras st;
                       st_accent := Some (List.length (st_moras st));
                       st_unvoice := false; st_skip := 0 |}
              end
          else
            match longest_match known_moras input with
            | None => inl (unknown_token input pos)
            | Some m =>
                let m' := if st_unvoice st then unvoice m else m in
                scan rest (S pos) seg_start
                  {| st_moras := st_moras st ++ [m'];
                     st_accent := st_accent st;
                     st_unvoice := false;
                     st_skip := List.length (text m) - 1 |}
            end
      end
  end.

Definition parse_segment (s : Segment) : GrammarError + AccentPhrase :=
  let '(body, interrogative) := strip_interrogative (seg_text s) in
  match
    scan body (seg_offset s) (seg_offset s)
      {| st_moras := []; st_accent := None; st_unvoice := false;
         st_skip := 0 |}
  with
  | inl err => inl err
  | inr (ms, a) =>
      inr {| moras := ms;
             accent := a;
             pause_mora := if seg_paused s then Some pause else None;
             is_interrogative := interrogative |}
  end.

(** The segments in turn; the first error ends the parse. *)
Fixpoint parse_segments (segments : list Segment)
  : GrammarError + list AccentPhrase :=
  match segments with
  | [] => inr []
  | s :: rest =>
      match parse_segment s with
      | inl err => inl err
      | inr phrase =>
          match parse_segments rest with
          | inl err => inl err
          | inr phrases => inr (phrase :: phrases)
          end
      end
  end.

(** Modelled from the spec: [parse_kana] of [tts_pipeline.kana_converter],
    the parser of the notation, whose source is not among the files embedded
    here.  The input is
    one or more segments, separated by the loose or the paused delimiter; a
    segment is a sequence of known morae, each possibly after the unvoicing
    marker, with exactly one accent marker, right after the mora it marks,
    and possibly the interrogative marker at its end. *)
Definition parse_kana (text : str) : GrammarError + list AccentPhrase :=
  parse_segments (split_segments text 0 0 []).

End Grammar.

Definition create_mora (m : Mora) : str :=
  if is_unvoiced m then UNVOICE_SYMBOL :: text m else text m.

(** The morae from the [i]-th on, the accent marker after the [a]-th. *)
Fixpoint create_moras (i : nat) (a : option nat) (ms : list Mora) : str :=
  match ms with
  | [] => []
  | m :: rest =>
      create_mora m
        ++ (match a with
            | Some k => if (k =? i)%nat then [ACCENT_SYMBOL] else []
            | None => []
            end)
        ++ create_moras (S i) a rest
  end.



Definition create_phrase (p : AccentPhrase) : str :=
  create_moras 1 (Some (accent p)) (moras p)
    ++ (if is_interrogative p then [WIDE_INTERROGATION_MARK] else []).

(** Modelled from the spec: [create_kana] of [tts_pipeline.kana_converter],
    the serializer of the notation: the phrases in order, each followed,
    unless it is the last, by the paused delimiter if it has a pause mora and
    by the loose delimiter if not. *)
Fixpoint create_kana (phrases : list AccentPhrase) : str :=
  match phrases with
  | [] => []
  | [p] => create_phrase p
  | p :: rest =>
      create_phrase p
        ++ (match pause_mora p with
            | Some _ => [PAUSE_DELIMITER]
            | None => [NOPAUSE_DELIMITER]
            end)
        ++ create_kana rest
  end.

End KanaConverter.

(** ** A small installation, for concrete runs *)

Module Sample.

Import KanaConverter.

(** The state of the collaborators: how many waveforms the engine has
    rendered so far. *)
Definition World := nat.

Definition mora (t : str) (c : option str) (v : str) : Mora :=
  {| text := t;
     consonant := c;
     consonant_length := option_map (fun _ => 0%float) c;
     vowel := v;
     vowel_length := 0;
     pitch := 5.5 |}.

Definition known_moras : list Mora :=
  [ mora (py "コ") (Some (py "k")) (py "o");
    mora (py "ン") None (py "N");
    mora (py "ニ") (Some (py "n")) (py "i");
    mora (py "チ") (Some (py "ch")) (py "i");
    mora (py "ワ") (Some (py "w")) (py "a");
    mora (py "キ") (Some (py "k")) (py "i");
    mora (py "キャ") (Some (py "ky")) (py "a");
    mora (py "ネ") (Some (py "n")) (py "e") ].

Definition pause : Mora :=
  {| text := [PAUSE_DELIMITER];
     consonant := None;
     consonant_length := None;
     vowel := py "pau";
     vowel_length := 0;
     pitch := 0 |}.

Definition parse_kana := KanaConverter.parse_kana known_moras pause.

Definition notation : str := py "コンニチワ'/_キャ'ネ？、ネ'".

(** The phrases of a text, for an engine that reads every text as kana
    notation. *)
Definition create_accent_phrases_of (text : str) : list AccentPhrase :=
  match parse_kana text with
  | inr phrases => phrases
  | inl _ => []
  end.

(** An engine that renders a query as one sample, its speed scale. *)
Definition engine : TTSEngine World :=
  {| create_accent_phrases := fun text _ =>
       ret (create_accent_phrases_of text);
     create_accent_phrases_from_kana := fun text _ =>
       match parse_kana text with
       | inr phrases => ret phrases
       | inl err => raise (ParseKanaError err)
       end;
     update_length_and_pitch := fun phrases _ => ret phrases;
     update_length := fun phrases _ => ret phrases;
     update_pitch := fun phrases _ => ret phrases;
     synthesize_wave := fun query _ _ =>
       fun w => (inr [Model.speedScale query], S w) |}.

Definition get_engine (core_version : option str)
  : M World (TTSEngine World) :=
  ret engine.

(** The same engine, except that it cannot render a stereo query. *)
Definition mono_engine : TTSEngine World :=
  {| create_accent_phrases := create_accent_phrases engine;
     create_accent_phrases_from_kana :=
       create_accent_phrases_from_kana engine;
     update_length_and_pitch := update_length_and_pitch engine;
     update_length := update_length engine;
     update_pitch := update_pitch engine;
     synthesize_wave := fun query style_id upspeak =>
       if outputStereo query then raise (BackendError (py "stereo"))
       else synthesize_wave engine query style_id upspeak |}.

Definition get_mono_engine (core_version : option str)
  : M World (TTSEngine World) :=
  ret mono_engine.

Definition core : CoreAdapter := {| default_sampling_rate := 24000 |}.

Definition get_core (core_version : option str) : M World CoreAdapter :=
  ret core.

Definition preset (id : Z) (speed : float) : Preset.t :=
  {| Preset.id := id;
     Preset.style_id := 3;
     Preset.speedScale := speed;
     Preset.pitchScale := 0.25;
     Preset.intonationScale := 1.5;
     Preset.volumeScale := 2;
     Preset.prePhonemeLength := 0.2;
     Preset.postPhonemeLength := 0.3 |}.

Definition presets : list Preset.t := [preset 1 1; preset 2 1.25].

Definition preset_manager : PresetManager World :=
  {| load_presets := ret presets |}.

Definition stereo_query (rate : Z) : AudioQuery :=
  {| Model.accent_phrases := [];
     Model.speedScale := 1;
     Model.pitchScale := 0;
     Model.intonationScale := 1;
     Model.volumeScale := 1;
     Model.prePhonemeLength := 0.1;
     Model.postPhonemeLength := 0.1;
     Model.outputSamplingRate := rate;
     Model.outputStereo := true;
     Model.kana := [] |}.

Definition query (speed : float) (rate : Z) : AudioQuery :=
  {| Model.accent_phrases := [];
     Model.speedScale := speed;
     Model.pitchScale := 0;
     Model.intonationScale := 1;
     Model.volumeScale := 1;
     Model.prePhonemeLength := 0.1;
     Model.postPhonemeLength := 0.1;
     Model.outputSamplingRate := rate;
     Model.outputStereo := false;
     Model.kana := [] |}.

(** A base64 input stands for [n] samples at rate [r] when its code points
    are [n; r]. *)
Definition decode_wave (s : str) : Wave * Z :=
  match s with
  | [n; r] => (repeat 0%float (N.to_nat n), Z.of_N r)
  | _ => ([], 0)
  end.

End Sample.

(** ** What a batch is expected to produce *)

Module Batch.

Section Rendering.

Context {World : Type}.

(** The waveforms of the queries, rendered one after the other. *)
Fixpoint render_all (engine : TTSEngine World) (style_id : StyleId)
    (queries : list AudioQuery) : M World (list Wave) :=
  match queries with
  | [] => ret []
  | query :: rest =>
      wave <- synthesize_wave engine query style_id None ;;
      waves <- render_all engine style_id rest ;;
      ret (wave :: waves)
  end.

End Rendering.

(** The response to a batch of queries of different sampling rates. *)
Definition mismatch : exn :=
  HTTPException 422
    (DetailText (py "サンプリングレートが異なるクエリがあります")).

(** The name of the [i]-th entry of the archive, counted from 1. *)
Definition entry_name (i : nat) : str :=
  zfill 3 (str_of_int (Z.of_nat i)) ++ py ".wav".

(** The archive of the waveforms, the first of them the [i]-th entry. *)
Fixpoint archive (i : nat) (waves : list Wave) (sampling_rate : Z)
  : list (str * Wav) :=
  match waves with
  | [] => []
  | wave :: rest =>
      (entry_name i, {| data := wave; samplerate := sampling_rate |})
        :: archive (S i) rest sampling_rate
  end.

(** A name of exactly three decimal digits and the extension [.wav]. *)
Definition three_digit_name (name : str) : bool :=
  match name with
  | [a; b; c; d; e; f; g] =>
      is_digit a && is_digit b && is_digit c
        && str_eqb [d; e; f; g] (py ".wav")
  | _ => false
  end.

(** Whether a response is anything but an archive with an entry whose name
    is not of three digits. *)
Definition three_digit_names {World : Type}
    (r : (exn + FileResponse) * World) : bool :=
  match r with
  | (inr {| body := ZipFile zip |}, _) =>
      forallb (fun e => three_digit_name (fst e)) zip
  | _ => true
  end.

(** The reading of the archive's naming as "every entry has a three-digit
    name": whatever archive [multi_synthesis] returns for a batch that is
    not empty, its entries all have such names. *)
Definition every_entry_has_a_three_digit_name : Prop :=
  forall (World : Type)
         (get_engine : option str -> M World (TTSEngine World))
         (queries : list AudioQuery) (style_id : StyleId)
         (core_version : option str) (w : World),
    queries <> [] ->
    three_digit_names
      (Router.multi_synthesis get_engine queries style_id core_version w)
    = true.

End Batch.

(** ** Reading an entry's number back *)

Module EntryName.

(** The numeral a string of digits is, up to its first character that is
    no digit. *)
Fixpoint uint_of_digits (s : str) : Decimal.uint :=
  match s with
  | [] => Decimal.Nil
  | c :: r =>
      if (c =? 48)%N then Decimal.D0 (uint_of_digits r)
      else if (c =? 49)%N then Decimal.D1 (uint_of_digits r)
      else if (c =? 50)%N then Decimal.D2 (uint_of_digits r)
      else if (c =? 51)%N then Decimal.D3 (uint_of_digits r)
      else if (c =? 52)%N then Decimal.D4 (uint_of_digits r)
      else if (c =? 53)%N then Decimal.D5 (uint_of_digits r)
      else if (c =? 54)%N then Decimal.D6 (uint_of_digits r)
      else if (c =? 55)%N then Decimal.D7 (uint_of_digits r)
      else if (c =? 56)%N then Decimal.D8 (uint_of_digits r)
      else if (c =? 57)%N then Decimal.D9 (uint_of_digits r)
      else Decimal.Nil
  end.

(** The number an entry's name starts with. *)
Definition entry_index (name : str) : N := Pos.of_uint (uint_of_digits name).

End EntryName.

(** ** The singing endpoints *)

Module Sing.

(** Modelled from the spec: [Score] and [FrameAudioQuery] of
    [voicevox_engine.model]: a score is a sequence of notes (pitch, length
    in frames, lyric); the fields of [FrameAudioQuery] are those its
    constructor is called with and the router reads. *)
Record Note := {
  key : option Z;
  frame_length : Z;
  lyric : str
}.

Definition Score := list Note.

Record FramePhoneme := {
  phoneme : str;
  phoneme_frame_length : Z
}.

Record FrameAudioQuery := {
  f0 : list float;
  volume : list float;
  phonemes : list FramePhoneme;
  volumeScale : float;
  outputSamplingRate : Z;
  outputStereo : bool
}.

(** The engine's methods for singing, on the engine [get_engine] returns. *)
Record SingEngine (World : Type) := {
  create_sing_phoneme_and_f0_and_volume :
    Score -> StyleId
    -> M World (list FramePhoneme * list float * list float);
  create_sing_volume_from_phoneme_and_f0 :
    Score -> list FramePhoneme -> list float -> StyleId
    -> M World (list float);
  frame_synthsize_wave : FrameAudioQuery -> StyleId -> M World Wave
}.

Arguments create_sing_phoneme_and_f0_and_volume {World}.
Arguments create_sing_volume_from_phoneme_and_f0 {World}.
Arguments frame_synthsize_wave {World}.

Section generate_tts_pipeline_router.

Context {World : Type}.

Variable get_engine : option str -> M World (SingEngine World).
Variable get_core : option str -> M World CoreAdapter.

Definition sing_frame_audio_query (score : Score) (style_id : StyleId)
    (core_version : option str) : M World FrameAudioQuery :=
  engine <- get_engine core_version ;;
  core <- get_core core_version ;;
  r <- create_sing_phoneme_and_f0_and_volume engine score style_id ;;
  let '(phonemes, f0, volume) := r in
  ret {| f0 := f0;
         volume := volume;
         phonemes := phonemes;
         volumeScale := 1;
         outputSamplingRate := default_sampling_rate core;
         outputStereo := false |}.

Definition sing_frame_volume (score : Score)
    (frame_audio_query : FrameAudioQuery) (style_id : StyleId)
    (core_version : option str) : M World (list float) :=
  engine <- get_engine core_version ;;
  create_sing_volume_from_phoneme_and_f0 engine score
    (phonemes frame_audio_query) (f0 frame_audio_query) style_id.

Definition frame_synthesis (query : FrameAudioQuery) (style_id : StyleId)
    (core_version : option str) : M World FileResponse :=
  engine <- get_engine core_version ;;
  wave <- frame_synthsize_wave engine query style_id ;;
  let f := {| data := wave; samplerate := outputSamplingRate query |} in
  ret {| body := WavFile f; media_type := py "audio/wav" |}.

End generate_tts_pipeline_router.

End Sing.

(** ** The other routers *)

(** A bare [Response(status_code=...)]. *)
Record Response := {
  status_code : Z
}.

Section Dependencies.

Context {World : Type}.

(** A route declared with [dependencies=[Depends(dependency)]]: the
    dependency runs first, and the handler only if it raised nothing. *)
Definition Depends {A} (dependency : M World unit) (handler : M World A)
  : M World A :=
  _ <- dependency ;; handler.

End Dependencies.

(** [voicevox_engine/app/routers/preset.py] *)
Module PresetRouter.

(** Modelled from the spec: [PresetManager] with the four methods this
    router calls; each may raise [PresetError]. *)
Record PresetManager (World : Type) := {
  load_presets : M World (list Preset.t);
  add_preset : Preset.t -> M World Z;
  update_preset : Preset.t -> M World Z;
  delete_preset : Z -> M World unit
}.

Arguments load_presets {World}.
Arguments add_preset {World}.
Arguments update_preset {World}.
Arguments delete_preset {World}.

Section generate_preset_router.

Context {World : Type}.

Variable preset_manager : PresetManager World.

(** [check_disabled_mutable_api] of [app.dependencies], which the routes
    that change presets depend on. *)
Variable check_disabled_mutable_api : M World unit.

(** [except PresetError as err: raise HTTPException(422, str(err))] *)
Definition except_PresetError {A} (err : exn) : option (M World A) :=
  match err with
  | PresetError message =>
      Some (raise (HTTPException 422 (DetailText message)))
  | _ => None
  end.

Definition get_presets : M World (list Preset.t) :=
  presets <- try_except (load_presets preset_manager) except_PresetError ;;
  ret presets.

Definition add_preset_handler (preset : Preset.t) : M World Z :=
  id <- try_except (add_preset preset_manager preset) except_PresetError ;;
  ret id.

Definition update_preset_handler (preset : Preset.t) : M World Z :=
  id <-
    try_except (update_preset preset_manager preset) except_PresetError ;;
  ret id.

Definition delete_preset_handler (id : Z) : M World Response :=
  _ <- try_except (delete_preset preset_manager id) except_PresetError ;;
  ret {| status_code := 204 |}.

(** The three routes that change presets, with their dependency. *)
Definition add_preset_route (preset : Preset.t) : M World Z :=
  Depends check_disabled_mutable_api (add_preset_handler preset).

Definition update_preset_route (preset : Preset.t) : M World Z :=
  Depends check_disabled_mutable_api (update_preset_handler preset).

Definition delete_preset_route (id : Z) : M World Response :=
  Depends check_disabled_mutable_api (delete_preset_handler id).

End generate_preset_router.

End PresetRouter.

(** [voicevox_engine/app/routers/setting.py] *)
Module SettingRouter.

Section generate_setting_router.

Context {World Request CorsPolicyMode : Type}.

(** [mode.value] of the enumeration [CorsPolicyMode]. *)
Variable value : CorsPolicyMode -> str.

(** Modelled from the spec: [Setting], [SettingHandler] and
    [EngineManifest], with the attributes and methods this router uses. *)
Record Setting := {
  cors_policy_mode : CorsPolicyMode;
  allow_origin : option str
}.

Record SettingHandler := {
  load : M World Setting;
  save : Setting -> M World unit
}.

Record EngineManifest := {
  brand_name : str
}.

(** What [TemplateResponse] is given: the template and its context. *)
Record TemplateResponse := {
  template : str;
  context_request : Request;
  context_brand_name : str;
  context_cors_policy_mode : str;
  context_allow_origin : str
}.

Variable setting_loader : SettingHandler.
Variable engine_manifest_data : EngineManifest.
Variable check_disabled_mutable_api : M World unit.

Definition setting_get (request : Request) : M World TemplateResponse :=
  settings <- load setting_loader ;;
  let brand_name := brand_name engine_manifest_data in
  let cors_policy_mode := cors_policy_mode settings in
  let allow_origin := allow_origin settings in
  let allow_origin :=
    match allow_origin with
    | None => py ""
    | Some origin => origin
    end in
  ret {| template := py "ui.html";
         context_request := request;
         context_brand_name := brand_name;
         context_cors_policy_mode := value cors_policy_mode;
         context_allow_origin := allow_origin |}.

Definition setting_post_handler (cors_policy_mode : CorsPolicyMode)
    (allow_origin : option str) : M World Response :=
  let settings :=
    {| cors_policy_mode := cors_policy_mode;
       allow_origin := allow_origin |} in
  _ <- save setting_loader settings ;;
  ret {| status_code := 204 |}.

Definition setting_post (cors_policy_mode : CorsPolicyMode)
    (allow_origin : option str) : M World Response :=
  Depends check_disabled_mutable_api
    (setting_post_handler cors_policy_mode allow_origin).

End generate_setting_router.

End SettingRouter.

(** [voicevox_engine/app/routers/speaker.py] *)
Module SpeakerRouter.

Definition bytes := list N.

(** Modelled from the spec: [Speaker], its styles and [SpeakerInfo] of
    [voicevox_engine.model], with the attributes this router reads and
    writes; an entry of [style_infos] is the dictionary the router
    builds. *)
Record SpeakerStyle := {
  id : Z
}.

Record Speaker := {
  speaker_uuid : str;
  styles : list SpeakerStyle
}.

Record StyleInfo := {
  info_id : Z;
  icon : str;
  portrait : option str;
  voice_samples : list str
}.

Record SpeakerInfo := {
  policy : str;
  speaker_portrait : str;
  style_infos : list StyleInfo
}.

(** Modelled from the spec: the core as this router uses it. *)
Record CoreAdapter (World : Type) := {
  speakers : str;
  initialize_style_id_synthesis : StyleId -> bool -> M World unit;
  is_initialized_style_id_synthesis : StyleId -> M World bool
}.

Arguments speakers {World}.
Arguments initialize_style_id_synthesis {World}.
Arguments is_initialized_style_id_synthesis {World}.

(** What reading a file can raise. *)
Inductive FileError :=
| FileNotFoundError
| OtherFileError (message : str).

Section generate_speaker_router.

Context {World Path : Type}.

(** The arguments of [generate_speaker_router]; of [metas_store] the one
    method called. *)
Variable get_core : option str -> M World (CoreAdapter World).
Variable load_combined_metas : CoreAdapter World -> M World (list Speaker).
Variable root_dir : Path.

(** What the module imports: [parse_obj_as(list[Speaker], json.loads(s))],
    [filter_speakers_and_styles], with [true] for ["speaker"] and [false]
    for ["singer"], and [base64.b64encode(s).decode("utf-8")]. *)
Variable parse_speakers : str -> M World (list Speaker).
Variable filter_speakers_and_styles : list Speaker -> bool -> list Speaker.
Variable b64encode_str : bytes -> str.

(** The file system as the request finds it: [path / name],
    [path.read_text("utf-8")], [path.read_bytes()] and [path.exists()]. *)
Variable joinpath : Path -> str -> Path.
Variable read_text : Path -> FileError + str.
Variable read_bytes : Path -> FileError + bytes.
Variable exists_ : Path -> bool.

Definition speakers_endpoint (core_version : option str)
  : M World (list Speaker) :=
  core <- get_core core_version ;;
  speakers <- load_combined_metas core ;;
  ret (filter_speakers_and_styles speakers true).

Definition singers (core_version : option str) : M World (list Speaker) :=
  core <- get_core core_version ;;
  singers <- load_combined_metas core ;;
  ret (filter_speakers_and_styles singers false).

(** The [for ... else] over the speakers: the first speaker of the
    identifier. *)
Fixpoint find_speaker (speakers : list Speaker) (uuid : str)
  : M World Speaker :=
  match speakers with
  | speaker :: rest =>
      if str_eqb (speaker_uuid speaker) uuid then ret speaker
      else find_speaker rest uuid
  | [] =>
      raise (HTTPException 404
               (DetailText (py "該当する話者が見つかりません")))
  end.

(** The path of the [j]-th voice sample of a style, [j] counted from 0. *)
Definition voice_sample_path (speaker_path : Path) (id : Z) (j : nat)
  : Path :=
  joinpath speaker_path
    (py "voice_samples/" ++ str_of_int id ++ py "_"
       ++ zfill 3 (str_of_int (Z.of_nat j + 1)) ++ py ".wav").

Definition icon_path (speaker_path : Path) (id : Z) : Path :=
  joinpath (joinpath speaker_path (py "icons")) (str_of_int id ++ py ".png").

Definition style_portrait_path (speaker_path : Path) (id : Z) : Path :=
  joinpath (joinpath speaker_path (py "portraits"))
    (str_of_int id ++ py ".png").

(** The list comprehension over [range(3)]. *)
Fixpoint read_voice_samples (speaker_path : Path) (id : Z) (js : list nat)
  : FileError + list str :=
  match js with
  | [] => inr []
  | j :: rest =>
      match read_bytes (voice_sample_path speaker_path id j) with
      | inl err => inl err
      | inr sample =>
          match read_voice_samples speaker_path id rest with
          | inl err => inl err
          | inr samples => inr (b64encode_str sample :: samples)
          end
      end
  end.

(** The body of the loop over the styles. *)
Definition read_style_info (speaker_path : Path) (style : SpeakerStyle)
  : FileError + StyleInfo :=
  let id := id style in
  match read_bytes (icon_path speaker_path id) with
  | inl err => inl err
  | inr icon_bytes =>
      let icon := b64encode_str icon_bytes in
      match
        (if exists_ (style_portrait_path speaker_path id) then
           match read_bytes (style_portrait_path speaker_path id) with
           | inl err => inl err
           | inr portrait_bytes => inr (Some (b64encode_str portrait_bytes))
           end
         else inr None)
      with
      | inl err => inl err
      | inr style_portrait =>
          match read_voice_samples speaker_path id (range 3) with
          | inl err => inl err
          | inr voice_samples =>
              inr {| info_id := id;
                     icon := icon;
                     portrait := style_portrait;
                     voice_samples := voice_samples |}
          end
      end
  end.

Fixpoint read_style_infos (speaker_path : Path) (styles : list SpeakerStyle)
  : FileError + list StyleInfo :=
  match styles with
  | [] => inr []
  | style :: rest =>
      match read_style_info speaker_path style with
      | inl err => inl err
      | inr info =>
          match read_style_infos speaker_path rest with
          | inl err => inl err
          | inr infos => inr (info :: infos)
          end
      end
  end.

(** The body of the [try] statement. *)
Definition read_speaker_info (speaker : Speaker) (uuid : str)
  : FileError + SpeakerInfo :=
  let speaker_path := joinpath (joinpath root_dir (py "speaker_info")) uuid in
  match read_text (joinpath speaker_path (py "policy.md")) with
  | inl err => inl err
  | inr policy =>
      match read_bytes (joinpath speaker_path (py "portrait.png")) with
      | inl err => inl err
      | inr portrait_bytes =>
          let portrait := b64encode_str portrait_bytes in
          match read_style_infos speaker_path (styles speaker) with
          | inl err => inl err
          | inr style_infos =>
              inr {| policy := policy;
                     speaker_portrait := portrait;
                     style_infos := style_infos |}
          end
      end
  end.

Definition _speaker_info (uuid : str) (speaker_or_singer : bool)
    (core_version : option str) : M World SpeakerInfo :=
  core <- get_core core_version ;;
  speakers <- parse_speakers (speakers core) ;;
  let speakers := filter_speakers_and_styles speakers speaker_or_singer in
  speaker <- find_speaker speakers uuid ;;
  match read_speaker_info speaker uuid with
  | inr ret_data => ret ret_data
  | inl FileNotFoundError =>
      raise (HTTPException 500
               (DetailText (py "追加情報が見つかりませんでした")))
  | inl (OtherFileError message) => raise (BackendError message)
  end.

Definition speaker_info (uuid : str) (core_version : option str)
  : M World SpeakerInfo :=
  _speaker_info uuid true core_version.

Definition singer_info (uuid : str) (core_version : option str)
  : M World SpeakerInfo :=
  _speaker_info uuid false core_version.

Definition initialize_speaker (style_id : StyleId) (skip_reinit : bool)
    (core_version : option str) : M World Response :=
  core <- get_core core_version ;;
  _ <- initialize_style_id_synthesis core style_id skip_reinit ;;
  ret {| status_code := 204 |}.

Definition is_initialized_speaker (style_id : StyleId)
    (core_version : option str) : M World bool :=
  core <- get_core core_version ;;
  is_initialized_style_id_synthesis core style_id.

End generate_speaker_router.

End SpeakerRouter.

(** The files [_speaker_info] reads for a speaker, the optional portraits
    of the styles apart. *)
Module SpeakerFiles.

Section SpeakerFiles.

Context {Path : Type}.

Variable joinpath : Path -> str -> Path.
Variable b64encode_str : SpeakerRouter.bytes -> str.
Variable read_bytes :
  Path -> SpeakerRouter.FileError + SpeakerRouter.bytes.
Variable exists_ : Path -> bool.

Definition speaker_path (root_dir : Path) (uuid : str) : Path :=
  joinpath (joinpath root_dir (py "speaker_info")) uuid.

Definition policy_file (root_dir : Path) (uuid : str) : Path :=
  joinpath (speaker_path root_dir uuid) (py "policy.md").

Definition style_files (speaker_path : Path)
    (style : SpeakerRouter.SpeakerStyle) : list Path :=
  SpeakerRouter.icon_path joinpath speaker_path (SpeakerRouter.id style)
    :: map (SpeakerRouter.voice_sample_path joinpath speaker_path
              (SpeakerRouter.id style))
         (range 3).

Definition binary_files (root_dir : Path) (speaker : SpeakerRouter.Speaker)
    (uuid : str) : list Path :=
  joinpath (speaker_path root_dir uuid) (py "portrait.png")
    :: flat_map (style_files (speaker_path root_dir uuid))
         (SpeakerRouter.styles speaker).

(** What the information on a style was read from. *)
Definition style_info_read (speaker_path : Path)
    (style : SpeakerRouter.SpeakerStyle) (info : SpeakerRouter.StyleInfo)
  : Prop :=
  let id := SpeakerRouter.id style in
  SpeakerRouter.info_id info = id
  /\ (exists content,
         read_bytes (SpeakerRouter.icon_path joinpath speaker_path id)
         = inr content
         /\ SpeakerRouter.icon info = b64encode_str content)
  /\ (if exists_ (SpeakerRouter.style_portrait_path joinpath speaker_path id)
      then exists content,
          read_bytes
            (SpeakerRouter.style_portrait_path joinpath speaker_path id)
          = inr content
          /\ SpeakerRouter.portrait info = Some (b64encode_str content)
      else SpeakerRouter.portrait info = None)
  /\ exists s1 s2 s3,
       read_bytes
         (joinpath speaker_path
            (py "voice_samples/" ++ str_of_int id ++ py "_001.wav"))
       = inr s1
       /\ read_bytes
            (joinpath speaker_path
               (py "voice_samples/" ++ str_of_int id ++ py "_002.wav"))
          = inr s2
       /\ read_bytes
            (joinpath speaker_path
               (py "voice_samples/" ++ str_of_int id ++ py "_003.wav"))
          = inr s3
       /\ SpeakerRouter.voice_samples info
          = [b64encode_str s1; b64encode_str s2; b64encode_str s3].

End SpeakerFiles.

End SpeakerFiles.

(** ** A small installation of the other routers *)

Module SampleStore.

(** The preset manager's state: the presets it holds. *)
Definition World := list Preset.t.

Definition has_id (id : Z) (presets : World) : bool :=
  existsb (fun p => Preset.id p =? id) presets.

Definition preset_manager : PresetRouter.PresetManager World :=
  {| PresetRouter.load_presets := fun w => (inr w, w);
     PresetRouter.add_preset := fun preset w =>
       (inr (Preset.id preset), w ++ [preset]);
     PresetRouter.update_preset := fun preset w =>
       if has_id (Preset.id preset) w then
         (inr (Preset.id preset),
          map (fun p =>
                 if Preset.id p =? Preset.id preset then preset else p) w)
       else (inl (PresetError (py "no such preset")), w);
     PresetRouter.delete_preset := fun id w =>
       if has_id id w then
         (inr tt, filter (fun p => negb (Preset.id p =? id)) w)
       else (inl (PresetError (py "no such preset")), w) |}.

Definition mutable_api_enabled : M World unit := ret tt.

Definition mutable_api_disabled : M World unit :=
  raise (HTTPException 403 (DetailText (py "disabled"))).

End SampleStore.

Module SampleSetting.

(** The setting handler's state: the setting saved, if any. *)
Definition World := option (@SettingRouter.Setting bool).

Definition value (mode : bool) : str :=
  if mode then py "all" else py "localapps".

Definition setting_loader : @SettingRouter.SettingHandler World bool :=
  {| SettingRouter.load := fun w =>
       match w with
       | Some settings => (inr settings, w)
       | None =>
           (inr {| SettingRouter.cors_policy_mode := false;
                   SettingRouter.allow_origin := None |}, w)
       end;
     SettingRouter.save := fun settings _ => (inr tt, Some settings) |}.

Definition engine_manifest_data : SettingRouter.EngineManifest :=
  {| SettingRouter.brand_name := py "VOICEVOX" |}.

Definition mutable_api_enabled : M World unit := ret tt.

End SampleSetting.

Module SampleSpeakers.

Definition World := unit.

(** Paths are strings, joined by a slash. *)
Definition Path := str.

Definition joinpath (path : Path) (name : str) : Path :=
  path ++ py "/" ++ name.

Definition speaker : SpeakerRouter.Speaker :=
  {| SpeakerRouter.speaker_uuid := py "7ffcb7ce";
     SpeakerRouter.styles := [{| SpeakerRouter.id := 2 |}] |}.

Definition core : SpeakerRouter.CoreAdapter World :=
  {| SpeakerRouter.speakers := py "[...]";
     SpeakerRouter.initialize_style_id_synthesis := fun _ _ => ret tt;
     SpeakerRouter.is_initialized_style_id_synthesis := fun _ => ret true |}.

Definition get_core (core_version : option str)
  : M World (SpeakerRouter.CoreAdapter World) :=
  ret core.

Definition parse_speakers (json : str)
  : M World (list SpeakerRouter.Speaker) :=
  ret [speaker].

Definition filter_speakers_and_styles
    (speakers : list SpeakerRouter.Speaker) (speaker_or_singer : bool)
  : list SpeakerRouter.Speaker :=
  if speaker_or_singer then speakers else [].

Definition b64encode_str (s : SpeakerRouter.bytes) : str := s.

(** The files of the one speaker; the portrait of its style is missing. *)
Definition files : list (Path * SpeakerRouter.bytes) :=
  [ (py "root/speaker_info/7ffcb7ce/policy.md", py "policy");
    (py "root/speaker_info/7ffcb7ce/portrait.png", [1]%N);
    (py "root/speaker_info/7ffcb7ce/icons/2.png", [2]%N);
    (py "root/speaker_info/7ffcb7ce/voice_samples/2_001.wav", [3]%N);
    (py "root/speaker_info/7ffcb7ce/voice_samples/2_002.wav", [4]%N);
    (py "root/speaker_info/7ffcb7ce/voice_samples/2_003.wav", [5]%N) ].

Fixpoint lookup (fs : list (Path * SpeakerRouter.bytes)) (path : Path)
  : option SpeakerRouter.bytes :=
  match fs with
  | [] => None
  | (p, content) :: rest =>
      if str_eqb p path then Some content else lookup rest path
  end.

Definition read_bytes (fs : list (Path * SpeakerRouter.bytes))
    (path : Path) : SpeakerRouter.FileError + SpeakerRouter.bytes :=
  match lookup fs path with
  | Some content => inr content
  | None => inl SpeakerRouter.FileNotFoundError
  end.

Definition exists_ (fs : list (Path * SpeakerRouter.bytes)) (path : Path)
  : bool :=
  match lookup fs path with
  | Some _ => true
  | None => false
  end.

(** The request for the information on a speaker, over the files [fs]. *)
Definition speaker_info (fs : list (Path * SpeakerRouter.bytes))
    (uuid : str) : M World SpeakerRouter.SpeakerInfo :=
  SpeakerRouter.speaker_info get_core (py "root") parse_speakers
    filter_speakers_and_styles b64encode_str joinpath (read_bytes fs)
    (read_bytes fs) (exists_ fs) uuid None.

End SampleSpeakers.

Module SampleMore.

(** A core lookup that knows no version. *)
Definition get_no_core (core_version : option str)
  : M Sample.World CoreAdapter :=
  raise (HTTPException 422 (DetailText (py "不明なバージョンです"))).

(** A cancellable engine that knows the default version only. *)
Definition cancellable_engine : CancellableEngine Sample.World nat :=
  {| _synthesis_impl := fun query style_id request core_version =>
       match core_version with
       | None => ret (py "/tmp/tmp0.wav")
       | Some _ => ret []
       end |}.

(** A preset manager whose file cannot be read. *)
Definition broken_preset_manager : PresetManager Sample.World :=
  {| load_presets := raise (PresetError (py "broken")) |}.

(** The query [audio_query] returns for a text in the installation. *)
Definition audio_query_of (text : str) (style_id : StyleId)
    (core_version : option str) : AudioQuery :=
  match
    Router.audio_query Sample.get_engine Sample.get_core
      KanaConverter.create_kana text style_id core_version 0%nat
  with
  | (inr query, _) => query
  | (inl _, _) => Sample.query 1 0
  end.

Definition sing_engine : Sing.SingEngine Sample.World :=
  {| Sing.create_sing_phoneme_and_f0_and_volume := fun score style_id =>
       ret ([], [440%float], [0.5%float]);
     Sing.create_sing_volume_from_phoneme_and_f0 :=
       fun score phonemes f0 style_id => ret f0;
     Sing.frame_synthsize_wave := fun query style_id =>
       fun w => (inr (Sing.f0 query), S w) |}.

Definition get_sing_engine (core_version : option str)
  : M Sample.World (Sing.SingEngine Sample.World) :=
  ret sing_engine.

End SampleMore.

(** ** The rate check read as unconditional *)

Module RateCheck.

(** The reading of the rate check as coming before everything else: once
    the engine is found, a batch with a query of another sampling rate than
    the first is refused with the 422 response, whatever the engine does
    with the queries. *)
Definition mixed_rates_always_refused : Prop :=
  forall (World : Type)
         (get_engine : option str -> M World (TTSEngine World))
         (q0 : AudioQuery) (qs : list AudioQuery) (style_id : StyleId)
         (core_version : option str) (engine : TTSEngine World)
         (w w1 : World),
    get_engine core_version w = (inr engine, w1) ->
    Exists (fun q => outputSamplingRate q <> outputSamplingRate q0)
      (q0 :: qs) ->
    exists w',
      Router.multi_synthesis get_engine (q0 :: qs) style_id core_version w
      = (inl Batch.mismatch, w').

End RateCheck.

(** * Properties *)

(** ** The monad *)

Section MonadFacts.

Context {World : Type}.

Lemma bind_returns {A B} (c : M World A) (k : A -> M World B) w x w' :
  c w = (inr x, w') -> bind c k w = k x w'.
Proof. intros H. unfold bind. rewrite H. reflexivity. Qed.

Lemma bind_raises {A B} (c : M World A) (k : A -> M World B) w e w' :
  c w = (inl e, w') -> bind c k w = (inl e, w').
Proof. intros H. unfold bind. rewrite H. reflexivity. Qed.

Lemma try_except_returns {A} (c : M World A) h w x w' :
  c w = (inr x, w') -> try_except c h w = (inr x, w').
Proof. intros H. unfold try_except. rewrite H. reflexivity. Qed.

Lemma getitem_nth {A} (l : list A) i x (w : World) :
  nth_error l i = Some x -> getitem l i w = (inr x, w).
Proof. intros H. unfold getitem. rewrite H. reflexivity. Qed.

End MonadFacts.

(** ** Decimal numerals *)

Lemma of_uint_acc_below d : forall acc,
  Z.pos (Pos.of_uint_acc d acc)
  < (Z.pos acc + 1) * 10 ^ Z.of_nat (List.length (uint_digits d)).
Proof.
  induction d as [|d IH|d IH|d IH|d IH|d IH|d IH|d IH|d IH|d IH|d IH];
    intros acc; cbn [Pos.of_uint_acc uint_digits List.length];
    [ rewrite Z.pow_0_r; lia | .. ];
    rewrite Nat2Z.inj_succ, Z.pow_succ_r by lia;
    (eapply Z.lt_le_trans; [apply IH|]);
    assert (0 < 10 ^ Z.of_nat (List.length (uint_digits d)))
      by (apply Z.pow_pos_nonneg; lia);
    nia.
Qed.

(** A numeral of [k] digits denotes a number below [10 ^ k]. *)
Lemma of_uint_below d :
  Z.of_N (Pos.of_uint d) < 10 ^ Z.of_nat (List.length (uint_digits d)).
Proof.
  induction d as [|d IH|d IH|d IH|d IH|d IH|d IH|d IH|d IH|d IH|d IH];
    cbn [Pos.of_uint uint_digits List.length];
    [ rewrite Z.pow_0_r; lia | .. ];
    rewrite Nat2Z.inj_succ, Z.pow_succ_r by lia;
    assert (0 < 10 ^ Z.of_nat (List.length (uint_digits d)))
      by (apply Z.pow_pos_nonneg; lia);
    [ lia | .. ];
    cbn [Z.of_N];
    (eapply Z.lt_le_trans; [apply of_uint_acc_below|]); nia.
Qed.

(** [str(n)] has more than [k] characters from [10 ^ k] on. *)
Lemma str_of_int_length (n : Z) (k : nat) :
  10 ^ Z.of_nat k <= n -> (k < List.length (str_of_int n))%nat.
Proof.
  intros Hn.
  assert (0 < 10 ^ Z.of_nat k) by (apply Z.pow_pos_nonneg; lia).
  destruct n as [|p|p]; [lia| |lia].
  unfold str_of_int. cbn [Z.to_int].
  pose proof (of_uint_below (Pos.to_uint p)) as Hlt.
  rewrite DecimalPos.Unsigned.of_to in Hlt. cbn [Z.of_N] in Hlt.
  destruct (Nat.lt_ge_cases k (List.length (uint_digits (Pos.to_uint p))))
    as [Hk|Hk]; [exact Hk|].
  assert (10 ^ Z.of_nat (List.length (uint_digits (Pos.to_uint p)))
          <= 10 ^ Z.of_nat k) by (apply Z.pow_le_mono_r; lia).
  lia.
Qed.

(** [zfill] leaves a string of the width or longer as it is. *)
Lemma zfill_long width (s : str) :
  (width <= List.length s)%nat -> zfill width s = s.
Proof.
  intros H. unfold zfill.
  replace (width - List.length s)%nat with 0%nat by lia.
  destruct s as [|c r]; [reflexivity|]. cbn [repeat app].
  destruct ((c =? 43) || (c =? 45))%N; reflexivity.
Qed.

Lemma three_digit_name_length name :
  Batch.three_digit_name name = true -> List.length name = 7%nat.
Proof.
  unfold Batch.three_digit_name. intros H.
  do 8 (destruct name as [|? name]; try discriminate). reflexivity.
Qed.

(** From the thousandth on, an entry has its plain number for a name, and
    that is not a name of three digits. *)
Lemma entry_name_unpadded i :
  (1000 <= i)%nat ->
  Batch.entry_name i = str_of_int (Z.of_nat i) ++ py ".wav"
  /\ Batch.three_digit_name (Batch.entry_name i) = false.
Proof.
  intros Hi.
  assert (Hlen : (3 < List.length (str_of_int (Z.of_nat i)))%nat)
    by (apply str_of_int_length; change (10 ^ Z.of_nat 3) with 1000; lia).
  unfold Batch.entry_name. rewrite zfill_long by lia.
  split; [reflexivity|].
  destruct (Batch.three_digit_name (str_of_int (Z.of_nat i) ++ py ".wav"))
    eqn:Hname; [|reflexivity].
  apply three_digit_name_length in Hname.
  rewrite length_app in Hname. cbn in Hname. lia.
Qed.

(** ** The query endpoints *)

Section QueryFacts.

Context {World : Type}.

Variable get_engine : option str -> M World (TTSEngine World).
Variable get_core : option str -> M World CoreAdapter.
Variable preset_manager : PresetManager World.
Variable create_kana : list AccentPhrase -> str.

(** C2: when the backend's text analysis returns the accent phrases of the
    text, [audio_query] returns the query made of these phrases with the
    default scale parameters (speed 1, pitch 0, intonation 1, volume 1,
    silence of 0.1 s before and after), the sampling rate of the core, and
    the serialization of the phrases as its [kana]. *)
Theorem audio_query_defaults text style_id core_version engine core phrases
    w w1 w2 w3 :
  get_engine core_version w = (inr engine, w1) ->
  get_core core_version w1 = (inr core, w2) ->
  create_accent_phrases engine text style_id w2 = (inr phrases, w3) ->
  exists query,
    Router.audio_query get_engine get_core create_kana
      text style_id core_version w = (inr query, w3)
    /\ Model.accent_phrases query = phrases
    /\ Model.speedScale query = 1%float
    /\ Model.pitchScale query = 0%float
    /\ Model.intonationScale query = 1%float
    /\ Model.volumeScale query = 1%float
    /\ Model.prePhonemeLength query = 0.1%float
    /\ Model.postPhonemeLength query = 0.1%float
    /\ outputSamplingRate query = default_sampling_rate core
    /\ outputStereo query = false
    /\ kana query = create_kana phrases.
Proof.
  intros Hengine Hcore Hphrases.
  eexists. split.
  - unfold Router.audio_query.
    rewrite (bind_returns _ _ _ _ _ Hengine).
    rewrite (bind_returns _ _ _ _ _ Hcore).
    rewrite (bind_returns _ _ _ _ _ Hphrases).
    reflexivity.
  - repeat split.
Qed.

Lemma select_preset_first before p after preset_id (w : World) :
  Forall (fun p' => Preset.id p' <> preset_id) before ->
  Preset.id p = preset_id ->
  Router.select_preset (before ++ p :: after) preset_id w = (inr p, w).
Proof.
  intros Hbefore Hp. induction Hbefore as [|p' before Hp' _ IH]; simpl.
  - rewrite (proj2 (Z.eqb_eq _ _) Hp). reflexivity.
  - rewrite (proj2 (Z.eqb_neq _ _) Hp'). exact IH.
Qed.

Lemma select_preset_none presets preset_id (w : World) :
  Forall (fun p => Preset.id p <> preset_id) presets ->
  Router.select_preset presets preset_id w
  = (inl (HTTPException 422
            (DetailText (py "該当するプリセットIDが見つかりません"))), w).
Proof.
  intros H. induction H as [|p presets Hp _ IH]; simpl.
  - reflexivity.
  - rewrite (proj2 (Z.eqb_neq _ _) Hp). exact IH.
Qed.

(** C3: with the presets loaded, [audio_query_from_preset] fails with the
    422 response of a missing preset when no preset has the id; when one
    has, the query it returns takes its six scale parameters from the first
    such preset, its sampling rate from the core and is not stereo. *)
Theorem audio_query_from_preset_selects text preset_id core_version
    engine core presets w w1 w2 w3 :
  get_engine core_version w = (inr engine, w1) ->
  get_core core_version w1 = (inr core, w2) ->
  load_presets preset_manager w2 = (inr presets, w3) ->
  (Forall (fun p => Preset.id p <> preset_id) presets ->
   Router.audio_query_from_preset get_engine get_core preset_manager
     create_kana text preset_id core_version w
   = (inl (HTTPException 422
             (DetailText (py "該当するプリセットIDが見つかりません"))), w3))
  /\ (forall before p after phrases w4,
        presets = before ++ p :: after ->
        Forall (fun p' => Preset.id p' <> preset_id) before ->
        Preset.id p = preset_id ->
        create_accent_phrases engine text (Preset.style_id p) w3
        = (inr phrases, w4) ->
        exists query,
          Router.audio_query_from_preset get_engine get_core preset_manager
            create_kana text preset_id core_version w = (inr query, w4)
          /\ Model.accent_phrases query = phrases
          /\ Model.speedScale query = Preset.speedScale p
          /\ Model.pitchScale query = Preset.pitchScale p
          /\ Model.intonationScale query = Preset.intonationScale p
          /\ Model.volumeScale query = Preset.volumeScale p
          /\ Model.prePhonemeLength query = Preset.prePhonemeLength p
          /\ Model.postPhonemeLength query = Preset.postPhonemeLength p
          /\ outputSamplingRate query = default_sampling_rate core
          /\ outputStereo query = false
          /\ kana query = create_kana phrases).
Proof.
  intros Hengine Hcore Hload.
  assert (Hstart :
    Router.audio_query_from_preset get_engine get_core preset_manager
      create_kana text preset_id core_version w
    = bind (Router.select_preset presets preset_id)
        (fun selected_preset =>
           bind (create_accent_phrases engine text
                   (Preset.style_id selected_preset))
             (fun accent_phrases =>
                ret {| Model.accent_phrases := accent_phrases;
                       Model.speedScale := Preset.speedScale selected_preset;
                       Model.pitchScale := Preset.pitchScale selected_preset;
                       Model.intonationScale :=
                         Preset.intonationScale selected_preset;
                       Model.volumeScale :=
                         Preset.volumeScale selected_preset;
                       Model.prePhonemeLength :=
                         Preset.prePhonemeLength selected_preset;
                       Model.postPhonemeLength :=
                         Preset.postPhonemeLength selected_preset;
                       outputSamplingRate := default_sampling_rate core;
                       outputStereo := false;
                       kana := create_kana accent_phrases |})) w3).
  { unfold Router.audio_query_from_preset.
    rewrite (bind_returns _ _ _ _ _ Hengine).
    rewrite (bind_returns _ _ _ _ _ Hcore).
    rewrite (bind_returns _ _ w2 presets w3
               (try_except_returns _ _ _ _ _ Hload)).
    reflexivity. }
  split.
  - intros Hnone. rewrite Hstart.
    apply bind_raises. apply select_preset_none. exact Hnone.
  - intros before p after phrases w4 -> Hbefore Hp Hphrases.
    eexists. split.
    + rewrite Hstart.
      rewrite (bind_returns _ _ _ _ _
                 (select_preset_first before p after preset_id w3 Hbefore Hp)).
      rewrite (bind_returns _ _ _ _ _ Hphrases).
      reflexivity.
    + repeat split.
Qed.

(** C5: [accent_phrases] hands a text that is not kana to the backend's
    text analysis and returns what it returns; it hands kana to the reading
    of the notation, and a [ParseKanaError] raised there comes out as the
    400 response built from that very error, anything else as it is. *)
Theorem accent_phrases_dispatch text style_id core_version engine w w1 :
  get_engine core_version w = (inr engine, w1) ->
  Router.accent_phrases get_engine text style_id false core_version w
  = create_accent_phrases engine text style_id w1
  /\ (forall r w2,
        create_accent_phrases_from_kana engine text style_id w1 = (r, w2) ->
        Router.accent_phrases get_engine text style_id true core_version w
        = (match r with
           | inl (ParseKanaError err) =>
               inl (HTTPException 400 (DetailParseKanaBadRequest err))
           | _ => r
           end, w2)).
Proof.
  intros Hengine. unfold Router.accent_phrases. split.
  - rewrite (bind_returns _ _ _ _ _ Hengine). reflexivity.
  - intros r w2 Hr. rewrite (bind_returns _ _ _ _ _ Hengine).
    unfold try_except. rewrite Hr.
    destruct r as [[]|]; reflexivity.
Qed.

End QueryFacts.

(** ** The synthesis endpoints *)

Section SynthesisFacts.

Context {World Request : Type}.

Variable get_engine : option str -> M World (TTSEngine World).

(** C6: without a cancellable engine, [cancellable_synthesis] fails with
    the 404 response, whatever the request, and leaves the state of the
    collaborators as it found it: nothing was started. *)
Theorem cancellable_synthesis_disabled (query : AudioQuery)
    (request : Request) (style_id : StyleId) (core_version : option str)
    (w : World) :
  Router.cancellable_synthesis None query request style_id core_version w
  = (inl (HTTPException 404
            (DetailText (py "実験的機能はデフォルトで無効になっています。使用するには引数を指定してください。"))),
     w).
Proof. reflexivity. Qed.

Lemma getitem_middle (before : list AudioQuery) q after (w : World) :
  getitem (before ++ q :: after) (List.length before) w = (inr q, w).
Proof.
  apply getitem_nth. rewrite nth_error_app2 by lia.
  rewrite Nat.sub_diag. reflexivity.
Qed.

Lemma entry_name_succ i :
  zfill 3 (str_of_int (Z.of_nat i + 1)) ++ py ".wav" = Batch.entry_name (S i).
Proof. unfold Batch.entry_name. rewrite Nat2Z.inj_succ. reflexivity. Qed.

(** With a cancellable engine the request goes to it, and only to it: what
    it returns is the file of the response, the empty name apart. *)
Lemma cancellable_synthesis_enabled
    (cancellable_engine : CancellableEngine World Request) query request
    style_id core_version w f_name w' :
  _synthesis_impl cancellable_engine query style_id request core_version w
  = (inr f_name, w') ->
  Router.cancellable_synthesis (Some cancellable_engine) query request
    style_id core_version w
  = if str_eqb f_name []
    then (inl (HTTPException 422 (DetailText (py "不明なバージョンです"))), w')
    else (inr {| body := FileAt f_name; media_type := py "audio/wav" |}, w').
Proof.
  intros H. unfold Router.cancellable_synthesis.
  rewrite (bind_returns _ _ _ _ _ H).
  change (py "") with (@nil N).
  destruct (str_eqb f_name []); reflexivity.
Qed.

(** One turn of the loop at a query of the expected rate: what the engine
    does with the query decides. *)
Lemma step_renders (engine : TTSEngine World) style_id before q after
    zip_file w :
  Router.multi_synthesis_step engine (before ++ q :: after) style_id
    (outputSamplingRate q) (List.length before) zip_file w
  = match synthesize_wave engine q style_id None w with
    | (inr wave, w') =>
        (inr (zip_file
                ++ [(Batch.entry_name (S (List.length before)),
                     {| data := wave;
                        samplerate := outputSamplingRate q |})]), w')
    | (inl e, w') => (inl e, w')
    end.
Proof.
  unfold Router.multi_synthesis_step.
  rewrite (bind_returns _ _ _ _ _ (getitem_middle before q after w)).
  rewrite Z.eqb_refl. cbn [negb].
  rewrite (bind_returns _ _ _ _ _ (getitem_middle before q after w)).
  unfold bind.
  destruct (synthesize_wave engine q style_id None w) as [[e|wave] w'].
  - reflexivity.
  - unfold ret. rewrite entry_name_succ. reflexivity.
Qed.

(** One turn of the loop at a query of another rate. *)
Lemma step_mismatch (engine : TTSEngine World) style_id sampling_rate before
    q after zip_file w :
  outputSamplingRate q <> sampling_rate ->
  Router.multi_synthesis_step engine (before ++ q :: after) style_id
    sampling_rate (List.length before) zip_file w
  = (inl Batch.mismatch, w).
Proof.
  intros Hq. unfold Router.multi_synthesis_step.
  rewrite (bind_returns _ _ _ _ _ (getitem_middle before q after w)).
  rewrite (proj2 (Z.eqb_neq _ _) Hq). reflexivity.
Qed.

Lemma render_all_cons (engine : TTSEngine World) style_id q queries w waves
    w' :
  Batch.render_all engine style_id (q :: queries) w = (inr waves, w') ->
  exists wave w1 waves',
    synthesize_wave engine q style_id None w = (inr wave, w1)
    /\ Batch.render_all engine style_id queries w1 = (inr waves', w')
    /\ waves = wave :: waves'.
Proof.
  cbn [Batch.render_all]. unfold bind.
  destruct (synthesize_wave engine q style_id None w) as [[e|wave] w1];
    [discriminate|].
  destruct (Batch.render_all engine style_id queries w1)
    as [[e|waves'] w2] eqn:Hrest; [discriminate|].
  intros H. injection H as <- <-.
  exists wave, w1, waves'.
  split; [reflexivity | split; [exact Hrest | reflexivity]].
Qed.

Lemma shift_before {A} (before : list A) q after :
  before ++ q :: after = (before ++ [q]) ++ after
  /\ List.length (before ++ [q]) = S (List.length before).
Proof.
  rewrite <- app_assoc, length_app. simpl. split; [reflexivity | lia].
Qed.

(** The loop over queries of the expected rate writes the archive of their
    waveforms, as long as the engine renders them. *)
Lemma loop_renders (engine : TTSEngine World) style_id sampling_rate queries :
  forall before zip_file w waves w',
    Forall (fun q => outputSamplingRate q = sampling_rate) queries ->
    Batch.render_all engine style_id queries w = (inr waves, w') ->
    for_ (seq (List.length before) (List.length queries))
      (Router.multi_synthesis_step engine (before ++ queries) style_id
         sampling_rate) zip_file w
    = (inr (zip_file
              ++ Batch.archive (S (List.length before)) waves sampling_rate),
       w').
Proof.
  induction queries as [|q queries IH];
    intros before zip_file w waves w' Hrates Hrender.
  - simpl in *. injection Hrender as <- <-. simpl.
    rewrite app_nil_r. reflexivity.
  - inversion Hrates as [|? ? Hq Hrest]; subst.
    destruct (render_all_cons _ _ _ _ _ _ _ Hrender)
      as (wave & w1 & waves' & Hwave & Hwaves & ->).
    cbn [List.length seq for_].
    erewrite bind_returns
      by (rewrite step_renders, Hwave; reflexivity).
    destruct (shift_before before q queries) as [-> <-].
    rewrite (IH _ _ _ _ _ Hrest Hwaves).
    rewrite <- app_assoc.
    destruct (shift_before before q queries) as [_ ->]. reflexivity.
Qed.

(** The loop stops with the 422 response at the first query of another
    rate, the queries before it rendered. *)
Lemma loop_mismatch (engine : TTSEngine World) style_id sampling_rate good bad
    rest :
  forall before zip_file w waves w',
    Forall (fun q => outputSamplingRate q = sampling_rate) good ->
    outputSamplingRate bad <> sampling_rate ->
    Batch.render_all engine style_id good w = (inr waves, w') ->
    for_ (seq (List.length before) (List.length (good ++ bad :: rest)))
      (Router.multi_synthesis_step engine (before ++ good ++ bad :: rest)
         style_id sampling_rate) zip_file w
    = (inl Batch.mismatch, w').
Proof.
  induction good as [|q good IH];
    intros before zip_file w waves w' Hrates Hbad Hrender.
  - simpl in Hrender. injection Hrender as <- <-.
    cbn [app List.length seq for_].
    apply bind_raises. apply step_mismatch. exact Hbad.
  - inversion Hrates as [|? ? Hq Hrest]; subst.
    destruct (render_all_cons _ _ _ _ _ _ _ Hrender)
      as (wave & w1 & waves' & Hwave & Hwaves & ->).
    cbn [app List.length seq for_].
    erewrite bind_returns
      by (rewrite step_renders, Hwave; reflexivity).
    destruct (shift_before before q (good ++ bad :: rest)) as [-> <-].
    exact (IH _ _ _ _ _ Hrest Hbad Hwaves).
Qed.

(** The loop stops with the engine's exception at the first query the
    engine fails to render, whatever the rates of the queries after it. *)
Lemma loop_backend_failure (engine : TTSEngine World) style_id good q rest :
  forall before zip_file w waves w1 e w',
    Forall (fun q' => outputSamplingRate q' = outputSamplingRate q) good ->
    Batch.render_all engine style_id good w = (inr waves, w1) ->
    synthesize_wave engine q style_id None w1 = (inl e, w') ->
    for_ (seq (List.length before) (List.length (good ++ q :: rest)))
      (Router.multi_synthesis_step engine (before ++ good ++ q :: rest)
         style_id (outputSamplingRate q)) zip_file w
    = (inl e, w').
Proof.
  induction good as [|q' good IH];
    intros before zip_file w waves w1 e w' Hrates Hrender Hfail.
  - simpl in Hrender. injection Hrender as <- <-.
    cbn [app List.length seq for_].
    apply bind_raises. rewrite step_renders, Hfail. reflexivity.
  - inversion Hrates as [|? ? Hq Hrest]; subst.
    destruct (render_all_cons _ _ _ _ _ _ _ Hrender)
      as (wave & w2 & waves' & Hwave & Hwaves & ->).
    cbn [app List.length seq for_].
    erewrite bind_returns
      by (rewrite <- Hq, step_renders, Hwave; reflexivity).
    destruct (shift_before before q' (good ++ q :: rest)) as [-> <-].
    exact (IH _ _ _ _ _ _ _ Hrest Hwaves Hfail).
Qed.

(** A batch of one rate, rendered by the engine, comes back as the archive
    of the waveforms. *)
Lemma multi_synthesis_accepts q0 qs style_id core_version engine w w1 waves
    w' :
  get_engine core_version w = (inr engine, w1) ->
  Forall (fun q => outputSamplingRate q = outputSamplingRate q0) (q0 :: qs) ->
  Batch.render_all engine style_id (q0 :: qs) w1 = (inr waves, w') ->
  Router.multi_synthesis get_engine (q0 :: qs) style_id core_version w
  = (inr {| body := ZipFile (Batch.archive 1 waves (outputSamplingRate q0));
            media_type := py "application/zip" |}, w').
Proof.
  intros Hengine Hrates Hrender. unfold Router.multi_synthesis.
  rewrite (bind_returns _ _ _ _ _ Hengine).
  rewrite (bind_returns _ _ w1 q0 w1) by reflexivity.
  unfold range.
  rewrite (bind_returns _ _ _ _ _
             (loop_renders engine style_id _ (q0 :: qs) [] [] _ _ _
                Hrates Hrender)).
  reflexivity.
Qed.

(** A batch with a query of another rate than the first is refused once
    the queries before that one have been rendered. *)
Lemma multi_synthesis_rejects q0 qs good bad rest style_id core_version
    engine w w1 waves w' :
  get_engine core_version w = (inr engine, w1) ->
  q0 :: qs = good ++ bad :: rest ->
  Forall (fun q => outputSamplingRate q = outputSamplingRate q0) good ->
  outputSamplingRate bad <> outputSamplingRate q0 ->
  Batch.render_all engine style_id good w1 = (inr waves, w') ->
  Router.multi_synthesis get_engine (q0 :: qs) style_id core_version w
  = (inl Batch.mismatch, w').
Proof.
  intros Hengine Hsplit Hgood Hbad Hrender. unfold Router.multi_synthesis.
  rewrite (bind_returns _ _ _ _ _ Hengine).
  rewrite (bind_returns _ _ w1 q0 w1) by reflexivity.
  unfold range. rewrite Hsplit.
  apply bind_raises.
  exact (loop_mismatch engine style_id _ good bad rest [] [] _ _ _
           Hgood Hbad Hrender).
Qed.

(** A query the engine fails to render ends the batch with the engine's
    exception when the queries before it are of the first one's rate, also
    when a query of another rate comes after it. *)
Lemma multi_synthesis_backend_failure q0 qs good q rest style_id
    core_version engine w w1 waves w2 e w' :
  get_engine core_version w = (inr engine, w1) ->
  q0 :: qs = good ++ q :: rest ->
  Forall (fun q' => outputSamplingRate q' = outputSamplingRate q0) good ->
  outputSamplingRate q = outputSamplingRate q0 ->
  Batch.render_all engine style_id good w1 = (inr waves, w2) ->
  synthesize_wave engine q style_id None w2 = (inl e, w') ->
  Router.multi_synthesis get_engine (q0 :: qs) style_id core_version w
  = (inl e, w').
Proof.
  intros Hengine Hsplit Hgood Hq Hrender Hfail.
  unfold Router.multi_synthesis.
  rewrite (bind_returns _ _ _ _ _ Hengine).
  rewrite (bind_returns _ _ w1 q0 w1) by reflexivity.
  unfold range. rewrite Hsplit, <- Hq in *.
  apply bind_raises.
  exact (loop_backend_failure engine style_id good q rest [] [] _ _ _ _ _
           Hgood Hrender Hfail).
Qed.

(** The first query of another rate, if there is one. *)
Lemma first_mismatch sampling_rate (queries : list AudioQuery) :
  Exists (fun q => outputSamplingRate q <> sampling_rate) queries ->
  exists good bad rest,
    queries = good ++ bad :: rest
    /\ Forall (fun q => outputSamplingRate q = sampling_rate) good
    /\ outputSamplingRate bad <> sampling_rate.
Proof.
  induction queries as [|q queries IH]; intros H.
  - inversion H.
  - destruct (Z.eq_dec (outputSamplingRate q) sampling_rate) as [Hq|Hq].
    + destruct IH as (good & bad & rest & -> & Hgood & Hbad).
      { inversion H; subst; [contradiction | assumption]. }
      exists (q :: good), bad, rest. repeat split; auto.
    + exists [], q, queries. repeat split; auto.
Qed.

(** An engine that renders any query renders any batch, a waveform for
    each query, in their order. *)
Lemma render_all_returns (engine : TTSEngine World) style_id :
  (forall q w, exists wave w',
      synthesize_wave engine q style_id None w = (inr wave, w')) ->
  forall queries w, exists waves w',
    Batch.render_all engine style_id queries w = (inr waves, w').
Proof.
  intros Hengine. induction queries as [|q queries IH]; intros w.
  - exists [], w. reflexivity.
  - destruct (Hengine q w) as (wave & w1 & Hwave).
    destruct (IH w1) as (waves & w' & Hwaves).
    exists (wave :: waves), w'. cbn [Batch.render_all].
    rewrite (bind_returns _ _ _ _ _ Hwave).
    rewrite (bind_returns _ _ _ _ _ Hwaves). reflexivity.
Qed.

Lemma render_all_in_order (engine : TTSEngine World) style_id queries :
  forall w waves w',
    Batch.render_all engine style_id queries w = (inr waves, w') ->
    Forall2
      (fun q wave => exists wa wb,
           synthesize_wave engine q style_id None wa = (inr wave, wb))
      queries waves.
Proof.
  induction queries as [|q queries IH]; intros w waves w' H.
  - simpl in H. injection H as <- <-. constructor.
  - destruct (render_all_cons _ _ _ _ _ _ _ H)
      as (wave & w1 & waves' & Hwave & Hwaves & ->).
    constructor; eauto.
Qed.

Lemma archive_data i waves sampling_rate :
  map (fun e => data (snd e)) (Batch.archive i waves sampling_rate) = waves.
Proof.
  revert i. induction waves as [|wave waves IH]; intros i; simpl.
  - reflexivity.
  - rewrite IH. reflexivity.
Qed.

Lemma archive_nth waves sampling_rate :
  forall i k wave,
    nth_error waves k = Some wave ->
    nth_error (Batch.archive i waves sampling_rate) k
    = Some (Batch.entry_name (i + k),
            {| data := wave; samplerate := sampling_rate |}).
Proof.
  induction waves as [|wave' waves IH]; intros i k wave H.
  - destruct k; discriminate.
  - destruct k as [|k]; simpl in *.
    + injection H as ->. rewrite Nat.add_0_r. reflexivity.
    + rewrite (IH (S i) k wave H).
      replace (S i + k)%nat with (i + S k)%nat by lia. reflexivity.
Qed.

Lemma archive_length i waves sampling_rate :
  List.length (Batch.archive i waves sampling_rate) = List.length waves.
Proof.
  revert i. induction waves as [|wave waves IH]; intros i; simpl.
  - reflexivity.
  - rewrite IH. reflexivity.
Qed.

Lemma entry_name_three_digits i :
  (1 <= i <= 999)%nat -> Batch.three_digit_name (Batch.entry_name i) = true.
Proof.
  intros Hi.
  assert (H : forallb (fun i => Batch.three_digit_name (Batch.entry_name i))
                (seq 1 999) = true) by (vm_compute; reflexivity).
  rewrite forallb_forall in H. apply H. apply in_seq. lia.
Qed.

(** C1, as amended: for a batch that is not empty, once the engine is
    found: when some query's sampling rate differs from the first query's,
    there is a first such query, and [multi_synthesis] fails with the 422
    response of inconsistent sampling rates provided the engine renders the
    queries before that one, which it is asked to do first; when all rates
    are that of the first and the engine renders the queries, it returns
    an archive that holds one waveform per query, in the order of the
    queries. *)
Theorem multi_synthesis_sampling_rates q0 qs style_id core_version engine
    w w1 :
  get_engine core_version w = (inr engine, w1) ->
  (Exists (fun q => outputSamplingRate q <> outputSamplingRate q0) (q0 :: qs) ->
   exists good bad rest,
     q0 :: qs = good ++ bad :: rest
     /\ Forall (fun q => outputSamplingRate q = outputSamplingRate q0) good
     /\ outputSamplingRate bad <> outputSamplingRate q0
     /\ forall waves w',
          Batch.render_all engine style_id good w1 = (inr waves, w') ->
          Router.multi_synthesis get_engine (q0 :: qs) style_id
            core_version w
          = (inl (HTTPException 422
                    (DetailText
                       (py "サンプリングレートが異なるクエリがあります"))),
             w'))
  /\ (Forall (fun q => outputSamplingRate q = outputSamplingRate q0)
        (q0 :: qs) ->
      forall waves w',
        Batch.render_all engine style_id (q0 :: qs) w1 = (inr waves, w') ->
        exists zip,
          Router.multi_synthesis get_engine (q0 :: qs) style_id
            core_version w
          = (inr {| body := ZipFile zip;
                    media_type := py "application/zip" |}, w')
          /\ map (fun e => data (snd e)) zip = waves
          /\ List.length waves = List.length (q0 :: qs)
          /\ Forall2
               (fun q wave => exists wa wb,
                    synthesize_wave engine q style_id None wa
                    = (inr wave, wb))
               (q0 :: qs) waves).
Proof.
  intros Hengine. split.
  - intros Hsome.
    destruct (first_mismatch _ _ Hsome)
      as (good & bad & rest & Hsplit & Hgood & Hbad).
    exists good, bad, rest.
    split; [exact Hsplit|]. split; [exact Hgood|]. split; [exact Hbad|].
    intros waves w' Hwaves.
    exact (multi_synthesis_rejects q0 qs good bad rest style_id core_version
             engine w w1 waves w' Hengine Hsplit Hgood Hbad Hwaves).
  - intros Hall waves w' Hwaves.
    exists (Batch.archive 1 waves (outputSamplingRate q0)).
    pose proof (render_all_in_order _ _ _ _ _ _ Hwaves) as Horder.
    split; [|split; [|split]].
    + exact (multi_synthesis_accepts q0 qs style_id core_version engine
               w w1 waves w' Hengine Hall Hwaves).
    + apply archive_data.
    + symmetry. exact (Forall2_length Horder).
    + exact Horder.
Qed.

(** C7, as amended: for a batch that is not empty, of one sampling rate and
    rendered by the engine, the archive holds the waveforms in the order of
    the queries, the [i]-th of them (counted from 1) under the decimal
    numeral of [i], filled with zeros to at least three digits and followed
    by [.wav]: a name of exactly three digits up to the 999th entry, and
    the plain numeral, of more digits, from the 1000th on. *)
Theorem multi_synthesis_archive q0 qs style_id core_version engine w w1
    waves w' :
  get_engine core_version w = (inr engine, w1) ->
  Forall (fun q => outputSamplingRate q = outputSamplingRate q0) (q0 :: qs) ->
  Batch.render_all engine style_id (q0 :: qs) w1 = (inr waves, w') ->
  exists zip,
    Router.multi_synthesis get_engine (q0 :: qs) style_id core_version w
    = (inr {| body := ZipFile zip; media_type := py "application/zip" |}, w')
    /\ List.length zip = List.length (q0 :: qs)
    /\ forall k wave,
         nth_error waves k = Some wave ->
         nth_error zip k
         = Some (zfill 3 (str_of_int (Z.of_nat (S k))) ++ py ".wav",
                 {| data := wave; samplerate := outputSamplingRate q0 |})
         /\ ((S k <= 999)%nat ->
             Batch.three_digit_name
               (zfill 3 (str_of_int (Z.of_nat (S k))) ++ py ".wav") = true)
         /\ ((1000 <= S k)%nat ->
             zfill 3 (str_of_int (Z.of_nat (S k))) ++ py ".wav"
             = str_of_int (Z.of_nat (S k)) ++ py ".wav"
             /\ Batch.three_digit_name
                  (zfill 3 (str_of_int (Z.of_nat (S k))) ++ py ".wav")
                = false).
Proof.
  intros Hengine Hall Hwaves.
  exists (Batch.archive 1 waves (outputSamplingRate q0)).
  split; [|split].
  - exact (multi_synthesis_accepts q0 qs style_id core_version engine
             w w1 waves w' Hengine Hall Hwaves).
  - rewrite archive_length.
    symmetry. exact (Forall2_length (render_all_in_order _ _ _ _ _ _ Hwaves)).
  - intros k wave Hk. split; [|split].
    + exact (archive_nth waves _ 1 k wave Hk).
    + intros Hle. apply (entry_name_three_digits (S k)). lia.
    + intros Hge. exact (entry_name_unpadded (S k) Hge).
Qed.

(** C9: [multi_synthesis] never returns for the empty batch, and once the
    engine is found it fails with the [IndexError] of reading the first
    query, not with a response of its own. *)
Theorem multi_synthesis_empty style_id core_version w :
  (forall response w',
      Router.multi_synthesis get_engine [] style_id core_version w
      <> (inr response, w'))
  /\ (forall engine w1,
        get_engine core_version w = (inr engine, w1) ->
        Router.multi_synthesis get_engine [] style_id core_version w
        = (inl IndexError, w1)).
Proof.
  unfold Router.multi_synthesis, bind. split.
  - intros response w'.
    destruct (get_engine core_version w) as [[e|engine] w1]; discriminate.
  - intros engine w1 ->. reflexivity.
Qed.

End SynthesisFacts.

(** ** Validation of the notation *)

Section ValidationFacts.

Context {World : Type}.

Variable parse_kana : str -> GrammarError + list AccentPhrase.

(** C10: [validate_kana] returns [True] for a text the parser accepts and
    fails with the 400 response built from the parser's error for a text
    it rejects; either way the state is untouched, and [False] is never
    returned. *)
Theorem validate_kana_never_false (text : str) (w : World) :
  ((exists phrases,
       parse_kana text = inr phrases
       /\ Router.validate_kana parse_kana text w = (inr true, w))
   \/ (exists err,
         parse_kana text = inl err
         /\ Router.validate_kana parse_kana text w
            = (inl (HTTPException 400 (DetailParseKanaBadRequest err)), w)))
  /\ forall w', Router.validate_kana parse_kana text w <> (inr false, w').
Proof.
  unfold Router.validate_kana, try_except.
  destruct (parse_kana text) as [err|phrases]; cbn.
  - split; [right; exists err; split; reflexivity | discriminate].
  - split; [left; exists phrases; split; reflexivity | discriminate].
Qed.

End ValidationFacts.

(** ** Joining waveforms *)

Section ConnectFacts.

Context {World : Type}.

Variable decode_wave : str -> Wave * Z.
Variable rate_of_nothing : Z.

Lemma forallb_rate_false (decoded : list (Wave * Z)) sampling_rate :
  Exists (fun d => snd d <> sampling_rate) decoded ->
  forallb (fun d => snd d =? sampling_rate) decoded = false.
Proof.
  induction 1 as [d decoded Hd|d decoded _ IH]; simpl.
  - rewrite (proj2 (Z.eqb_neq _ _) Hd). reflexivity.
  - rewrite IH. apply andb_false_r.
Qed.

Lemma forallb_rate_true (decoded : list (Wave * Z)) sampling_rate :
  Forall (fun d => snd d = sampling_rate) decoded ->
  forallb (fun d => snd d =? sampling_rate) decoded = true.
Proof.
  induction 1 as [|d decoded Hd _ IH]; simpl.
  - reflexivity.
  - rewrite (proj2 (Z.eqb_eq _ _) Hd), IH. reflexivity.
Qed.

Lemma length_concat_sum {A} (ls : list (list A)) :
  List.length (List.concat ls) = list_sum (map (@List.length A) ls).
Proof.
  induction ls as [|l ls IH]; simpl.
  - reflexivity.
  - rewrite length_app, IH. reflexivity.
Qed.

(** C8: [connect_waves] fails with the 422 response of a sample rate
    mismatch when two inputs carry different sampling rates; when all carry
    one rate it returns a single WAV file at that rate whose samples are
    those of the inputs, concatenated in input order with nothing between
    them, so that its length is the sum of theirs. *)
Theorem connect_waves_concatenates (waves : list str) (w : World) :
  ((exists a b,
       In a waves /\ In b waves
       /\ snd (decode_wave a) <> snd (decode_wave b)) ->
   Router.connect_waves
     (ConnectBase64Waves.connect_base64_waves decode_wave rate_of_nothing)
     waves w
   = (inl (HTTPException 422
             (DetailText ConnectBase64Waves.SampleRateMismatch)), w))
  /\ ((forall a b,
          In a waves -> In b waves ->
          snd (decode_wave a) = snd (decode_wave b)) ->
      exists samples sampling_rate,
        Router.connect_waves
          (ConnectBase64Waves.connect_base64_waves decode_wave
             rate_of_nothing) waves w
        = (inr {| body := WavFile {| data := samples;
                                     samplerate := sampling_rate |};
                  media_type := py "audio/wav" |}, w)
        /\ samples = List.concat (map (fun s => fst (decode_wave s)) waves)
        /\ (forall s, In s waves -> snd (decode_wave s) = sampling_rate)
        /\ List.length samples
           = list_sum
               (map (fun s => List.length (fst (decode_wave s))) waves)).
Proof.
  unfold Router.connect_waves, ConnectBase64Waves.connect_base64_waves.
  split.
  - intros (a & b & Ha & Hb & Hab).
    destruct waves as [|s0 waves']; [contradiction|].
    cbn [map]. destruct (decode_wave s0) as [samples0 rate0] eqn:H0.
    rewrite <- H0, <- (map_cons decode_wave).
    rewrite forallb_rate_false; [reflexivity|].
    apply Exists_exists.
    destruct (Z.eq_dec (snd (decode_wave a)) rate0) as [Hrate|Hrate].
    + exists (decode_wave b). split; [apply in_map; exact Hb | congruence].
    + exists (decode_wave a). split; [apply in_map; exact Ha | exact Hrate].
  - intros Hsame.
    destruct waves as [|s0 waves'].
    + exists [], rate_of_nothing.
      split; [reflexivity|]. split; [reflexivity|].
      split; [intros s []|reflexivity].
    + cbn [map]. destruct (decode_wave s0) as [samples0 rate0] eqn:H0.
      rewrite <- H0, <- (map_cons decode_wave).
      assert (Hrate : forall s, In s (s0 :: waves') ->
                snd (decode_wave s) = rate0).
      { intros s Hs. rewrite (Hsame s s0 Hs (or_introl eq_refl)), H0.
        reflexivity. }
      rewrite forallb_rate_true.
      * exists (List.concat (map fst (map decode_wave (s0 :: waves')))),
          rate0.
        split; [reflexivity|].
        split; [rewrite map_map; reflexivity|].
        split; [exact Hrate|].
        rewrite length_concat_sum, !map_map. reflexivity.
      * apply Forall_forall. intros d Hd.
        apply in_map_iff in Hd. destruct Hd as (s & <- & Hs).
        exact (Hrate s Hs).
Qed.

End ConnectFacts.

(** ** The notation: reading back what was written *)

Section NotationFacts.

Import KanaConverter.

Variable known_moras : list Mora.
Variable pause : Mora.


















End NotationFacts.

(** ** Concrete runs *)

Section Runs.

Import KanaConverter.

Lemma sample_engine_renders : forall q (w : Sample.World), exists wave w',
    synthesize_wave Sample.engine q 3 None w = (inr wave, w').
Proof. intros q w. exists [Model.speedScale q], (S w). reflexivity. Qed.

(** Rates 24000, 24000, 22050 are refused, after two queries were
    rendered; three queries at 24000 give three waveforms. *)
Lemma multi_synthesis_sampling_rates_run :
  Router.multi_synthesis Sample.get_engine
    [Sample.query 1 24000; Sample.query 2 24000; Sample.query 3 22050]
    3 None 0%nat
  = (inl Batch.mismatch, 2%nat)
  /\ (exists zip,
         Router.multi_synthesis Sample.get_engine
           [Sample.query 1 24000; Sample.query 2 24000; Sample.query 3 24000]
           3 None 0%nat
         = (inr {| body := ZipFile zip;
                   media_type := py "application/zip" |}, 3%nat)
         /\ map (fun e => data (snd e)) zip
            = [[1%float]; [2%float]; [3%float]]).
Proof.
  split.
  - destruct (proj1 (multi_synthesis_sampling_rates Sample.get_engine
                       (Sample.query 1 24000)
                       [Sample.query 2 24000; Sample.query 3 22050]
                       3 None Sample.engine 0%nat 0%nat eq_refl))
      as (good & bad & rest & Hsplit & Hgood & Hbad & Hrun).
    { apply Exists_cons_tl, Exists_cons_tl, Exists_cons_hd. discriminate. }
    destruct good as [|g1 [|g2 [|g3 good]]].
    + injection Hsplit as <- _. contradiction Hbad. reflexivity.
    + injection Hsplit as _ <- _. contradiction Hbad. reflexivity.
    + injection Hsplit as <- <- _ _.
      exact (Hrun [[1%float]; [2%float]] 2%nat eq_refl).
    + injection Hsplit as _ _ <- _.
      inversion Hgood as [|? ? _ Hgood1]; subst.
      inversion Hgood1 as [|? ? _ Hgood2]; subst.
      inversion Hgood2 as [|? ? Hg3 _]; subst. discriminate Hg3.
  - assert (Hall : Forall (fun q => outputSamplingRate q = 24000)
                     [Sample.query 1 24000; Sample.query 2 24000;
                      Sample.query 3 24000])
      by (repeat constructor).
    destruct (proj2 (multi_synthesis_sampling_rates Sample.get_engine
                       (Sample.query 1 24000)
                       [Sample.query 2 24000; Sample.query 3 24000]
                       3 None Sample.engine 0%nat 0%nat eq_refl)
                Hall [[1%float]; [2%float]; [3%float]] 3%nat eq_refl)
      as (zip & Hrun & Hdata & _).
    exists zip. split; assumption.
Defined.

(** With an engine that fails on the first query, the batch ends with the
    engine's exception, not with the refusal of the second query's rate. *)
Lemma mixed_rates_not_always_refused :
  ~ RateCheck.mixed_rates_always_refused.
Proof.
  intros H.
  destruct (H Sample.World Sample.get_mono_engine
              (Sample.stereo_query 24000) [Sample.query 1 22050] 3 None
              Sample.mono_engine 0%nat 0%nat eq_refl) as [w' Hrun].
  - apply Exists_cons_tl, Exists_cons_hd. discriminate.
  - vm_compute in Hrun. discriminate Hrun.
Qed.

Lemma audio_query_defaults_run :
  exists query,
    Router.audio_query Sample.get_engine Sample.get_core create_kana
      Sample.notation 3 None 0%nat = (inr query, 0%nat)
    /\ Model.speedScale query = 1%float
    /\ Model.prePhonemeLength query = 0.1%float
    /\ outputSamplingRate query = 24000
    /\ kana query = Sample.notation.
Proof.
  destruct (audio_query_defaults Sample.get_engine Sample.get_core
              create_kana Sample.notation 3 None Sample.engine Sample.core
              (Sample.create_accent_phrases_of Sample.notation)
              0%nat 0%nat 0%nat 0%nat eq_refl eq_refl eq_refl)
    as (query & Hrun & _ & Hspeed & _ & _ & _ & Hpre & _ & Hrate & _ & Hkana).
  exists query. repeat split; assumption.
Defined.

Lemma audio_query_from_preset_run :
  Router.audio_query_from_preset Sample.get_engine Sample.get_core
    Sample.preset_manager create_kana Sample.notation 7 None 0%nat
  = (inl (HTTPException 422
            (DetailText (py "該当するプリセットIDが見つかりません"))), 0%nat)
  /\ exists query,
       Router.audio_query_from_preset Sample.get_engine Sample.get_core
         Sample.preset_manager create_kana Sample.notation 2 None 0%nat
       = (inr query, 0%nat)
       /\ Model.speedScale query = 1.25%float
       /\ outputSamplingRate query = 24000
       /\ outputStereo query = false.
Proof.
  split.
  - apply (audio_query_from_preset_selects Sample.get_engine Sample.get_core
             Sample.preset_manager create_kana Sample.notation 7 None
             Sample.engine Sample.core Sample.presets
             0%nat 0%nat 0%nat 0%nat eq_refl eq_refl eq_refl).
    repeat constructor; discriminate.
  - assert (Hbefore : Forall (fun p => Preset.id p <> 2) [Sample.preset 1 1])
      by (repeat constructor; discriminate).
    destruct (proj2 (audio_query_from_preset_selects Sample.get_engine
                       Sample.get_core Sample.preset_manager create_kana
                       Sample.notation 2 None Sample.engine Sample.core
                       Sample.presets 0%nat 0%nat 0%nat 0%nat
                       eq_refl eq_refl eq_refl)
                [Sample.preset 1 1] (Sample.preset 2 1.25) []
                (Sample.create_accent_phrases_of Sample.notation) 0%nat
                eq_refl Hbefore eq_refl eq_refl)
      as (query & Hrun & _ & Hspeed & _ & _ & _ & _ & _ & Hrate & Hstereo & _).
    exists query. repeat split; assumption.
Defined.


Lemma accent_phrases_dispatch_run :
  Router.accent_phrases Sample.get_engine (py "コ'ン'") 3 false None 0%nat
  = (inr [], 0%nat)
  /\ Router.accent_phrases Sample.get_engine (py "コ'ン'") 3 true None 0%nat
     = (inl (HTTPException 400
               (DetailParseKanaBadRequest
                  {| kind := MultipleAccentNuclei; position := 0 |})),
        0%nat).
Proof.
  destruct (accent_phrases_dispatch Sample.get_engine (py "コ'ン'") 3 None
              Sample.engine 0%nat 0%nat eq_refl) as [Htext Hkana].
  split.
  - rewrite Htext. vm_compute. reflexivity.
  - rewrite (Hkana (inl (ParseKanaError
                           {| kind := MultipleAccentNuclei;
                              position := 0 |})) 0%nat)
      by (vm_compute; reflexivity).
    reflexivity.
Defined.

Lemma multi_synthesis_archive_run :
  exists zip,
    Router.multi_synthesis Sample.get_engine
      [Sample.query 1 24000; Sample.query 2 24000] 3 None 0%nat
    = (inr {| body := ZipFile zip; media_type := py "application/zip" |},
       2%nat)
    /\ nth_error zip 0
       = Some (py "001.wav", {| data := [1%float]; samplerate := 24000 |})
    /\ nth_error zip 1
       = Some (py "002.wav", {| data := [2%float]; samplerate := 24000 |}).
Proof.
  assert (Hall : Forall (fun q => outputSamplingRate q = 24000)
                   [Sample.query 1 24000; Sample.query 2 24000])
    by (repeat constructor).
  destruct (multi_synthesis_archive Sample.get_engine
              (Sample.query 1 24000) [Sample.query 2 24000] 3 None
              Sample.engine 0%nat 0%nat [[1%float]; [2%float]] 2%nat
              eq_refl Hall eq_refl)
    as (zip & Hrun & _ & Hnth).
  exists zip. split; [exact Hrun|]. split.
  - exact (proj1 (Hnth 0%nat [1%float] eq_refl)).
  - exact (proj1 (Hnth 1%nat [2%float] eq_refl)).
Defined.

Lemma multi_synthesis_empty_run :
  Router.multi_synthesis Sample.get_engine [] 3 None 0%nat
  = (inl IndexError, 0%nat).
Proof.
  exact (proj2 (multi_synthesis_empty Sample.get_engine 3 None 0%nat)
           Sample.engine 0%nat eq_refl).
Defined.

(** Inputs of 100 and of 200 samples at 24000 give 300 samples at 24000;
    inputs at 24000 and at 22050 are refused. *)
Lemma connect_waves_concatenates_run :
  Router.connect_waves (World := Sample.World)
    (ConnectBase64Waves.connect_base64_waves Sample.decode_wave 0)
    [[100; 24000]; [200; 22050]]%N 0%nat
  = (inl (HTTPException 422
            (DetailText ConnectBase64Waves.SampleRateMismatch)), 0%nat)
  /\ exists samples,
       Router.connect_waves (World := Sample.World)
         (ConnectBase64Waves.connect_base64_waves Sample.decode_wave 0)
         [[100; 24000]; [200; 24000]]%N 0%nat
       = (inr {| body := WavFile {| data := samples; samplerate := 24000 |};
                 media_type := py "audio/wav" |}, 0%nat)
       /\ List.length samples = 300%nat.
Proof.
  split.
  - apply (connect_waves_concatenates (World := Sample.World)
             Sample.decode_wave 0 [[100; 24000]; [200; 22050]]%N 0%nat).
    exists [100; 24000]%N, [200; 22050]%N.
    split; [left; reflexivity|]. split; [right; left; reflexivity|].
    discriminate.
  - destruct (proj2 (connect_waves_concatenates (World := Sample.World)
                       Sample.decode_wave 0 [[100; 24000]; [200; 24000]]%N
                       0%nat))
      as (samples & sampling_rate & Hrun & _ & Hrate & Hlen).
    + intros a b [<-|[<-|[]]] [<-|[<-|[]]]; reflexivity.
    + exists samples.
      rewrite <- (Hrate [100; 24000]%N (or_introl eq_refl)) in Hrun.
      split; [exact Hrun | exact Hlen].
Defined.

(** The engine's failure on the first query comes before the refusal of
    the second query's rate. *)
Example multi_synthesis_backend_failure_run :
  Router.multi_synthesis Sample.get_mono_engine
    [Sample.stereo_query 24000; Sample.query 1 22050] 3 None 0%nat
  = (inl (BackendError (py "stereo")), 0%nat).
Proof.
  apply (multi_synthesis_backend_failure Sample.get_mono_engine
           (Sample.stereo_query 24000) [Sample.query 1 22050]
           [] (Sample.stereo_query 24000) [Sample.query 1 22050]
           3 None Sample.mono_engine 0%nat 0%nat [] 0%nat
           (BackendError (py "stereo")) 0%nat);
    try reflexivity.
  constructor.
Qed.

(** A batch of a thousand queries has an entry named [1000.wav]. *)
Lemma thousandth_entry_has_four_digits :
  ~ Batch.every_entry_has_a_three_digit_name.
Proof.
  intros H.
  specialize (H Sample.World Sample.get_engine
                (repeat (Sample.query 1 24000) 1000) 3 None 0%nat).
  assert (Hrun :
    Batch.three_digit_names
      (Router.multi_synthesis Sample.get_engine
         (repeat (Sample.query 1 24000) 1000) 3 None 0%nat) = false)
    by (vm_compute; reflexivity).
  rewrite H in Hrun; [discriminate|].
  vm_compute. discriminate.
Qed.

End Runs.

(** ** More on the synthesis endpoints *)

Section BatchConverse.

Context {World : Type}.

Variable get_engine : option str -> M World (TTSEngine World).

(** A loop that ends without an exception went over queries of the expected
    rate only, and wrote the archive of their waveforms. *)
Lemma loop_returns (engine : TTSEngine World) style_id sampling_rate queries :
  forall before zip_file w zip w',
    for_ (seq (List.length before) (List.length queries))
      (Router.multi_synthesis_step engine (before ++ queries) style_id
         sampling_rate) zip_file w
    = (inr zip, w') ->
    Forall (fun q => outputSamplingRate q = sampling_rate) queries
    /\ exists waves,
         Batch.render_all engine style_id queries w = (inr waves, w')
         /\ zip = zip_file
                    ++ Batch.archive (S (List.length before)) waves
                         sampling_rate.
Proof.
  induction queries as [|q queries IH]; intros before zip_file w zip w' H.
  - cbn in H. injection H as <- <-. split; [constructor|].
    exists []. split; [reflexivity|]. cbn. rewrite app_nil_r. reflexivity.
  - cbn [List.length seq for_] in H. unfold bind in H.
    destruct (Z.eq_dec (outputSamplingRate q) sampling_rate) as [Hq|Hq].
    + subst sampling_rate. rewrite step_renders in H.
      destruct (synthesize_wave engine q style_id None w)
        as [[e|wave] w1] eqn:Hwave; [discriminate|].
      destruct (shift_before before q queries) as [Happ Hlen].
      rewrite Happ, <- Hlen in H.
      destruct (IH _ _ _ _ _ H) as (Hrates & waves & Hwaves & ->).
      split; [constructor; [reflexivity | exact Hrates]|].
      exists (wave :: waves). split.
      * cbn [Batch.render_all].
        rewrite (bind_returns _ _ _ _ _ Hwave).
        rewrite (bind_returns _ _ _ _ _ Hwaves). reflexivity.
      * rewrite Hlen, <- app_assoc. reflexivity.
    + rewrite (step_mismatch engine style_id sampling_rate before q queries
                 zip_file w Hq) in H.
      discriminate.
Qed.

(** What a response of [multi_synthesis] tells about the batch. *)
Lemma multi_synthesis_inversion queries style_id core_version w
    response w' :
  Router.multi_synthesis get_engine queries style_id core_version w
  = (inr response, w') ->
  exists q0 qs engine w1 waves,
    queries = q0 :: qs
    /\ get_engine core_version w = (inr engine, w1)
    /\ Forall (fun q => outputSamplingRate q = outputSamplingRate q0) queries
    /\ Batch.render_all engine style_id queries w1 = (inr waves, w')
    /\ List.length waves = List.length queries
    /\ response
       = {| body := ZipFile (Batch.archive 1 waves (outputSamplingRate q0));
            media_type := py "application/zip" |}.
Proof.
  unfold Router.multi_synthesis, bind. intros H.
  destruct (get_engine core_version w) as [[e|engine] w1]; [discriminate|].
  destruct queries as [|q0 qs]; [discriminate|].
  cbn [getitem nth_error ret] in H.
  destruct (for_ (range (List.length (q0 :: qs)))
              (Router.multi_synthesis_step engine (q0 :: qs) style_id
                 (outputSamplingRate q0)) [] w1)
    as [[e|zip] w2] eqn:Hloop; [discriminate|].
  injection H as <- <-.
  destruct (loop_returns engine style_id _ (q0 :: qs) [] [] w1 zip w2 Hloop)
    as (Hrates & waves & Hwaves & ->).
  exists q0, qs, engine, w1, waves.
  split; [reflexivity|]. split; [reflexivity|]. split; [exact Hrates|].
  split; [exact Hwaves|]. split; [|reflexivity].
  symmetry. exact (Forall2_length (render_all_in_order _ _ _ _ _ _ Hwaves)).
Qed.

(** X1: whenever [multi_synthesis] returns a response, the batch was not
    empty, every query had the sampling rate of the first, the engine
    rendered all of them in order, and the response is the archive of these
    waveforms: no archive is ever returned for a batch of mixed rates,
    whatever the engine does. *)
Theorem multi_synthesis_returns_uniform queries style_id core_version w
    response w' :
  Router.multi_synthesis get_engine queries style_id core_version w
  = (inr response, w') ->
  exists q0 qs engine w1 waves,
    queries = q0 :: qs
    /\ get_engine core_version w = (inr engine, w1)
    /\ Forall (fun q => outputSamplingRate q = outputSamplingRate q0) queries
    /\ Batch.render_all engine style_id queries w1 = (inr waves, w')
    /\ List.length waves = List.length queries
    /\ response
       = {| body := ZipFile (Batch.archive 1 waves (outputSamplingRate q0));
            media_type := py "application/zip" |}.
Proof. exact (multi_synthesis_inversion _ _ _ _ _ _). Qed.

(** X2: a batch with a query of another rate than the first is refused
    only after the queries before the first such query have been rendered:
    when the engine renders these, the batch fails with the 422 response
    and leaves the state their rendering left. *)
Theorem multi_synthesis_renders_before_refusing q0 qs good bad rest
    style_id core_version engine w w1 waves w' :
  get_engine core_version w = (inr engine, w1) ->
  q0 :: qs = good ++ bad :: rest ->
  Forall (fun q => outputSamplingRate q = outputSamplingRate q0) good ->
  outputSamplingRate bad <> outputSamplingRate q0 ->
  Batch.render_all engine style_id good w1 = (inr waves, w') ->
  Router.multi_synthesis get_engine (q0 :: qs) style_id core_version w
  = (inl (HTTPException 422
            (DetailText (py "サンプリングレートが異なるクエリがあります"))),
     w').
Proof.
  intros Hengine Hsplit Hgood Hbad Hwaves.
  exact (multi_synthesis_rejects get_engine q0 qs good bad rest style_id
           core_version engine w w1 waves w' Hengine Hsplit Hgood Hbad
           Hwaves).
Qed.

(** X3: when the engine fails on a query and the queries before it have
    the first query's rate and were rendered, the batch fails with the
    engine's exception, also when a query of another rate comes later:
    the rates are checked one query at a time, not beforehand. *)
Theorem multi_synthesis_engine_failure_first q0 qs good q rest style_id
    core_version engine w w1 waves w2 e w' :
  get_engine core_version w = (inr engine, w1) ->
  q0 :: qs = good ++ q :: rest ->
  Forall (fun q' => outputSamplingRate q' = outputSamplingRate q0) good ->
  outputSamplingRate q = outputSamplingRate q0 ->
  Batch.render_all engine style_id good w1 = (inr waves, w2) ->
  synthesize_wave engine q style_id None w2 = (inl e, w') ->
  Router.multi_synthesis get_engine (q0 :: qs) style_id core_version w
  = (inl e, w').
Proof.
  intros Hengine Hsplit Hgood Hq Hwaves Hfail.
  exact (multi_synthesis_backend_failure get_engine q0 qs good q rest
           style_id core_version engine w w1 waves w2 e w' Hengine Hsplit
           Hgood Hq Hwaves Hfail).
Qed.

(** Digits, followed by something that is no digit, read back as the
    numeral they were written from. *)
Lemma uint_of_digits_uint_digits d c rest :
  is_digit c = false ->
  EntryName.uint_of_digits (uint_digits d ++ c :: rest) = d.
Proof.
  intros Hc.
  induction d as [|d IH|d IH|d IH|d IH|d IH|d IH|d IH|d IH|d IH|d IH];
    cbn [uint_digits app EntryName.uint_of_digits];
    [| cbn; rewrite IH; reflexivity ..].
  unfold is_digit in Hc.
  repeat match goal with
         | |- (if (c =? ?k)%N then _ else _) = _ =>
             destruct (N.eqb_spec c k) as [->|_]; [discriminate Hc|]
         end.
  reflexivity.
Qed.

Lemma uint_of_digits_zeros k s :
  Pos.of_uint (EntryName.uint_of_digits (repeat (digit_char 0) k ++ s))
  = Pos.of_uint (EntryName.uint_of_digits s).
Proof.
  induction k as [|k IH]; [reflexivity|]. cbn. exact IH.
Qed.

(** [zfill] puts its zeros in front of a numeral. *)
Lemma zfill_uint_digits width d :
  zfill width (uint_digits d)
  = repeat (digit_char 0) (width - List.length (uint_digits d))
      ++ uint_digits d.
Proof.
  unfold zfill.
  destruct d; cbn [uint_digits]; try reflexivity.
  cbn [app]. rewrite app_nil_r. reflexivity.
Qed.

(** The number of an entry can be read back from its name. *)
Lemma entry_index_entry_name i :
  EntryName.entry_index (Batch.entry_name i) = N.of_nat i.
Proof.
  unfold EntryName.entry_index, Batch.entry_name, str_of_int.
  assert (Hd : exists d,
             Z.to_int (Z.of_nat i) = Decimal.Pos d
             /\ Pos.of_uint d = N.of_nat i).
  { destruct i as [|i].
    - exists (Decimal.D0 Decimal.Nil). split; reflexivity.
    - exists (Pos.to_uint (Pos.of_succ_nat i)). split.
      + reflexivity.
      + rewrite DecimalPos.Unsigned.of_to. reflexivity. }
  destruct Hd as (d & -> & <-).
  rewrite zfill_uint_digits, <- app_assoc, uint_of_digits_zeros.
  change (py ".wav") with (46%N :: py "wav").
  rewrite uint_of_digits_uint_digits by reflexivity. reflexivity.
Qed.

Lemma entry_name_injective i j :
  Batch.entry_name i = Batch.entry_name j -> i = j.
Proof.
  intros H. apply Nat2N.inj.
  rewrite <- !entry_index_entry_name, H. reflexivity.
Qed.

Lemma archive_names waves sampling_rate : forall i,
  map fst (Batch.archive i waves sampling_rate)
  = map Batch.entry_name (seq i (List.length waves)).
Proof.
  induction waves as [|wave waves IH]; intros i; cbn.
  - reflexivity.
  - rewrite IH. reflexivity.
Qed.

(** X4: in an archive [multi_synthesis] returns, no two entries have the
    same name, and the name of the entry at position [k], counted from 0,
    starts with the decimal numeral of [k + 1], zeros in front or not. *)
Theorem multi_synthesis_entry_names queries style_id core_version w zip
    media w' :
  Router.multi_synthesis get_engine queries style_id core_version w
  = (inr {| body := ZipFile zip; media_type := media |}, w') ->
  NoDup (map fst zip)
  /\ forall k name wav,
       nth_error zip k = Some (name, wav) ->
       EntryName.entry_index name = N.of_nat (S k).
Proof.
  intros H.
  destruct (multi_synthesis_inversion _ _ _ _ _ _ H)
    as (q0 & qs & engine & w1 & waves & _ & _ & _ & _ & _ & Hresponse).
  injection Hresponse as -> _.
  split.
  - rewrite archive_names.
    apply Injective_map_NoDup; [|apply seq_NoDup].
    intros i j. apply entry_name_injective.
  - intros k name wav Hk.
    assert (Hname : nth_error (map fst (Batch.archive 1 waves
                                          (outputSamplingRate q0))) k
                    = Some name)
      by (rewrite nth_error_map, Hk; reflexivity).
    rewrite archive_names, nth_error_map in Hname.
    destruct (nth_error (seq 1 (List.length waves)) k) as [i|] eqn:Hi;
      [|discriminate].
    injection Hname as <-.
    assert (Hlt : (k < List.length (seq 1 (List.length waves)))%nat)
      by (apply nth_error_Some; congruence).
    rewrite length_seq in Hlt.
    rewrite (nth_error_nth' _ 0%nat) in Hi by (rewrite length_seq; exact Hlt).
    rewrite seq_nth in Hi by exact Hlt.
    injection Hi as <-.
    apply entry_index_entry_name.
Qed.

(** X5: [audio_query] raises nothing of its own: when it fails, the
    exception and the state are those of its first collaborator that
    failed, the engine lookup, the core lookup or the text analysis, in
    this order. *)
Theorem audio_query_fails_by_propagation
    (get_core : option str -> M World CoreAdapter)
    (create_kana : list AccentPhrase -> str)
    text style_id core_version w e w' :
  Router.audio_query get_engine get_core create_kana text style_id
    core_version w = (inl e, w') ->
  get_engine core_version w = (inl e, w')
  \/ (exists engine w1,
         get_engine core_version w = (inr engine, w1)
         /\ get_core core_version w1 = (inl e, w'))
  \/ (exists engine w1 core w2,
         get_engine core_version w = (inr engine, w1)
         /\ get_core core_version w1 = (inr core, w2)
         /\ create_accent_phrases engine text style_id w2 = (inl e, w')).
Proof.
  unfold Router.audio_query, bind. intros H.
  destruct (get_engine core_version w) as [[e1|engine] w1].
  - left. injection H as <- <-. reflexivity.
  - right.
    destruct (get_core core_version w1) as [[e2|core] w2] eqn:Hcore.
    + left. exists engine, w1. injection H as <- <-.
      split; [reflexivity | exact Hcore].
    + right. exists engine, w1, core, w2.
      split; [reflexivity|]. split; [exact Hcore|].
      destruct (create_accent_phrases engine text style_id w2)
        as [[e3|phrases] w3]; [|discriminate].
      injection H as <- <-. reflexivity.
Qed.

End BatchConverse.

Section PipelineExtras.

Context {World Request : Type}.

Variable get_engine : option str -> M World (TTSEngine World).
Variable get_core : option str -> M World CoreAdapter.
Variable create_kana : list AccentPhrase -> str.

(** X6: with a cancellable engine configured, [cancellable_synthesis] asks
    it and nobody else: it fails with the engine's exception, with the 422
    response of an unknown version when the engine returns the empty file
    name, and otherwise answers with the file the engine names. *)
Theorem cancellable_synthesis_asks_engine
    (cancellable_engine : CancellableEngine World Request) query request
    style_id core_version w r w' :
  _synthesis_impl cancellable_engine query style_id request core_version w
  = (r, w') ->
  Router.cancellable_synthesis (Some cancellable_engine) query request
    style_id core_version w
  = (match r with
     | inl e => inl e
     | inr [] =>
         inl (HTTPException 422 (DetailText (py "不明なバージョンです")))
     | inr f_name =>
         inr {| body := FileAt f_name; media_type := py "audio/wav" |}
     end, w').
Proof.
  intros H. destruct r as [e|f_name].
  - exact (bind_raises _ _ _ _ _ H).
  - rewrite (cancellable_synthesis_enabled cancellable_engine _ _ _ _ _ _ _ H).
    destruct f_name; reflexivity.
Qed.

(** The sampling rate of a query [audio_query] returns is the default rate
    of the core that [get_core] returned for it. *)
Lemma audio_query_rate text style_id core_version w query w' :
  Router.audio_query get_engine get_core create_kana text style_id
    core_version w = (inr query, w') ->
  exists core wa wb,
    get_core core_version wa = (inr core, wb)
    /\ outputSamplingRate query = default_sampling_rate core.
Proof.
  unfold Router.audio_query, bind. intros H.
  destruct (get_engine core_version w) as [[e|engine] w1]; [discriminate|].
  destruct (get_core core_version w1) as [[e|core] w2] eqn:Hcore;
    [discriminate|].
  destruct (create_accent_phrases engine text style_id w2)
    as [[e|phrases] w3]; [discriminate|].
  injection H as <- _. exists core, w1, w2. split; [exact Hcore|reflexivity].
Qed.

(** X7: queries that [audio_query] returned can be synthesized together:
    when every core [get_core] returns has one default sampling rate, a
    batch of such queries, whatever texts, styles and versions they were
    made for, is not refused for its rates, and an engine that renders
    gives the archive of all of them. *)
Theorem multi_synthesis_of_audio_queries sampling_rate q0 qs style_id
    core_version engine w w1 :
  (forall version wa core wb,
      get_core version wa = (inr core, wb) ->
      default_sampling_rate core = sampling_rate) ->
  Forall
    (fun q => exists text style version wa wb,
         Router.audio_query get_engine get_core create_kana text style
           version wa = (inr q, wb))
    (q0 :: qs) ->
  get_engine core_version w = (inr engine, w1) ->
  (forall q w, exists wave w',
      synthesize_wave engine q style_id None w = (inr wave, w')) ->
  exists waves w',
    Router.multi_synthesis get_engine (q0 :: qs) style_id core_version w
    = (inr {| body := ZipFile (Batch.archive 1 waves sampling_rate);
              media_type := py "application/zip" |}, w')
    /\ List.length waves = List.length (q0 :: qs).
Proof.
  intros Hcores Hqueries Hengine Hrenders.
  assert (Hrates : Forall (fun q => outputSamplingRate q = sampling_rate)
                     (q0 :: qs)).
  { eapply Forall_impl; [|exact Hqueries].
    intros q (text & style & version & wa & wb & Hq).
    destruct (audio_query_rate _ _ _ _ _ _ Hq) as (core & wc & wd & Hc & ->).
    exact (Hcores _ _ _ _ Hc). }
  assert (Hq0 : outputSamplingRate q0 = sampling_rate)
    by (inversion Hrates; assumption).
  destruct (render_all_returns engine style_id Hrenders (q0 :: qs) w1)
    as (waves & w' & Hwaves).
  exists waves, w'. split.
  - rewrite <- Hq0.
    apply (multi_synthesis_accepts get_engine q0 qs style_id core_version
             engine w w1 waves w' Hengine); [|exact Hwaves].
    rewrite Hq0. exact Hrates.
  - symmetry. exact (Forall2_length (render_all_in_order _ _ _ _ _ _ Hwaves)).
Qed.

(** X16: [synthesis] of a query that [audio_query] returned writes the
    waveform the engine renders for it, with the upspeak flag of the
    request, at the default sampling rate of the core the query was made
    with. *)
Theorem synthesis_of_audio_query text style_id core_version style_id'
    upspeak core_version' w query w1 response w2 :
  Router.audio_query get_engine get_core create_kana text style_id
    core_version w = (inr query, w1) ->
  Router.synthesis get_engine query style_id' upspeak core_version' w1
  = (inr response, w2) ->
  exists core wa wb engine wc wave,
    get_core core_version wa = (inr core, wb)
    /\ get_engine core_version' w1 = (inr engine, wc)
    /\ synthesize_wave engine query style_id' (Some upspeak) wc
       = (inr wave, w2)
    /\ response
       = {| body := WavFile {| data := wave;
                               samplerate := default_sampling_rate core |};
            media_type := py "audio/wav" |}.
Proof.
  intros Hquery Hsynth.
  destruct (audio_query_rate _ _ _ _ _ _ Hquery)
    as (core & wa & wb & Hcore & Hrate).
  unfold Router.synthesis, bind in Hsynth.
  destruct (get_engine core_version' w1) as [[e|engine] wc] eqn:Hengine;
    [discriminate|].
  destruct (synthesize_wave engine query style_id' (Some upspeak) wc)
    as [[e|wave] wd] eqn:Hwave; [discriminate|].
  injection Hsynth as <- <-.
  exists core, wa, wb, engine, wc, wave.
  split; [exact Hcore|]. split; [reflexivity|]. split; [exact Hwave|].
  unfold ret. rewrite Hrate. reflexivity.
Qed.

(** X8: in [audio_query_from_preset] a [PresetError] of the preset manager
    comes out as the 422 response that carries its message, in the state
    the manager left: no preset is looked up and no text analysed. *)
Theorem audio_query_from_preset_load_failure
    (preset_manager : PresetManager World) text preset_id core_version
    engine core message w w1 w2 w3 :
  get_engine core_version w = (inr engine, w1) ->
  get_core core_version w1 = (inr core, w2) ->
  load_presets preset_manager w2 = (inl (PresetError message), w3) ->
  Router.audio_query_from_preset get_engine get_core preset_manager
    create_kana text preset_id core_version w
  = (inl (HTTPException 422 (DetailText message)), w3).
Proof.
  intros Hengine Hcore Hload. unfold Router.audio_query_from_preset.
  rewrite (bind_returns _ _ _ _ _ Hengine).
  rewrite (bind_returns _ _ _ _ _ Hcore).
  apply bind_raises. unfold try_except. rewrite Hload. reflexivity.
Qed.

End PipelineExtras.

(** ** The preset router *)

Section PresetRouterFacts.

Context {World : Type}.

Variable preset_manager : PresetRouter.PresetManager World.
Variable check_disabled_mutable_api : M World unit.

(** What [except PresetError] makes of the outcome of a call. *)
Lemma try_except_PresetError {A} (c : M World A) w r w' :
  c w = (r, w') ->
  try_except c PresetRouter.except_PresetError w
  = (match r with
     | inl (PresetError message) =>
         inl (HTTPException 422 (DetailText message))
     | _ => r
     end, w').
Proof.
  intros H. unfold try_except. rewrite H.
  destruct r as [[]|]; reflexivity.
Qed.

(** X9: when the check of the mutable API raises, the three routes that
    change presets raise the same exception and leave the state the check
    left: the preset manager is not called. *)
Theorem preset_routes_guarded preset id w e w' :
  check_disabled_mutable_api w = (inl e, w') ->
  PresetRouter.add_preset_route preset_manager check_disabled_mutable_api
    preset w = (inl e, w')
  /\ PresetRouter.update_preset_route preset_manager
       check_disabled_mutable_api preset w = (inl e, w')
  /\ PresetRouter.delete_preset_route preset_manager
       check_disabled_mutable_api id w = (inl e, w').
Proof.
  intros H. repeat split; exact (bind_raises _ _ _ _ _ H).
Qed.

(** X10: every endpoint of the preset router returns what the preset
    manager returns, [delete_preset] the 204 response; a [PresetError]
    comes out as the 422 response that carries its message, any other
    exception as it is, and the state is the one the manager left. *)
Theorem preset_endpoints_translate_PresetError preset id w w1 :
  check_disabled_mutable_api w = (inr tt, w1) ->
  (forall r w2,
      PresetRouter.load_presets preset_manager w = (r, w2) ->
      PresetRouter.get_presets preset_manager w
      = (match r with
         | inl (PresetError message) =>
             inl (HTTPException 422 (DetailText message))
         | _ => r
         end, w2))
  /\ (forall r w2,
         PresetRouter.add_preset preset_manager preset w1 = (r, w2) ->
         PresetRouter.add_preset_route preset_manager
           check_disabled_mutable_api preset w
         = (match r with
            | inl (PresetError message) =>
                inl (HTTPException 422 (DetailText message))
            | _ => r
            end, w2))
  /\ (forall r w2,
         PresetRouter.update_preset preset_manager preset w1 = (r, w2) ->
         PresetRouter.update_preset_route preset_manager
           check_disabled_mutable_api preset w
         = (match r with
            | inl (PresetError message) =>
                inl (HTTPException 422 (DetailText message))
            | _ => r
            end, w2))
  /\ (forall r w2,
         PresetRouter.delete_preset preset_manager id w1 = (r, w2) ->
         PresetRouter.delete_preset_route preset_manager
           check_disabled_mutable_api id w
         = (match r with
            | inl (PresetError message) =>
                inl (HTTPException 422 (DetailText message))
            | inl e => inl e
            | inr _ => inr {| status_code := 204 |}
            end, w2)).
Proof.
  intros Hcheck. split; [|split; [|split]]; intros r w2 H.
  - unfold PresetRouter.get_presets, bind.
    rewrite (try_except_PresetError _ _ _ _ H).
    destruct r as [[]|]; reflexivity.
  - unfold PresetRouter.add_preset_route, Depends.
    rewrite (bind_returns _ _ _ _ _ Hcheck).
    unfold PresetRouter.add_preset_handler, bind.
    rewrite (try_except_PresetError _ _ _ _ H).
    destruct r as [[]|]; reflexivity.
  - unfold PresetRouter.update_preset_route, Depends.
    rewrite (bind_returns _ _ _ _ _ Hcheck).
    unfold PresetRouter.update_preset_handler, bind.
    rewrite (try_except_PresetError _ _ _ _ H).
    destruct r as [[]|]; reflexivity.
  - unfold PresetRouter.delete_preset_route, Depends.
    rewrite (bind_returns _ _ _ _ _ Hcheck).
    unfold PresetRouter.delete_preset_handler, bind.
    rewrite (try_except_PresetError _ _ _ _ H).
    destruct r as [[]|]; reflexivity.
Qed.

End PresetRouterFacts.

(** ** The setting router *)

Section SettingRouterFacts.

Context {World Request CorsPolicyMode : Type}.

Variable value : CorsPolicyMode -> str.
Variable setting_loader : @SettingRouter.SettingHandler World CorsPolicyMode.
Variable engine_manifest_data : SettingRouter.EngineManifest.
Variable check_disabled_mutable_api : M World unit.

(** X11: when the check of the mutable API passes and the setting handler
    loads what it saved, the settings page requested after [setting_post]
    shows the brand name, the value of the policy mode posted and the
    origin posted, the empty string for no origin; when the check raises,
    [setting_post] raises the same and saves nothing. *)
Theorem setting_post_then_get (mode : CorsPolicyMode) (origin : option str)
    (request : Request) w w1 w2 w3 :
  let settings :=
    {| SettingRouter.cors_policy_mode := mode;
       SettingRouter.allow_origin := origin |} in
  (check_disabled_mutable_api w = (inr tt, w1) ->
   SettingRouter.save setting_loader settings w1 = (inr tt, w2) ->
   SettingRouter.load setting_loader w2 = (inr settings, w3) ->
   SettingRouter.setting_post setting_loader check_disabled_mutable_api
     mode origin w = (inr {| status_code := 204 |}, w2)
   /\ SettingRouter.setting_get value setting_loader engine_manifest_data
        request w2
      = (inr {| SettingRouter.template := py "ui.html";
                SettingRouter.context_request := request;
                SettingRouter.context_brand_name :=
                  SettingRouter.brand_name engine_manifest_data;
                SettingRouter.context_cors_policy_mode := value mode;
                SettingRouter.context_allow_origin :=
                  match origin with
                  | Some o => o
                  | None => []
                  end |}, w3))
  /\ (forall e,
         check_disabled_mutable_api w = (inl e, w1) ->
         SettingRouter.setting_post setting_loader
           check_disabled_mutable_api mode origin w = (inl e, w1)).
Proof.
  intros settings. split.
  - intros Hcheck Hsave Hload. split.
    + unfold SettingRouter.setting_post, Depends.
      rewrite (bind_returns _ _ _ _ _ Hcheck).
      unfold SettingRouter.setting_post_handler.
      rewrite (bind_returns _ _ _ _ _ Hsave). reflexivity.
    + unfold SettingRouter.setting_get.
      rewrite (bind_returns _ _ _ _ _ Hload).
      destruct origin; reflexivity.
  - intros e Hcheck. exact (bind_raises _ _ _ _ _ Hcheck).
Qed.

End SettingRouterFacts.

(** ** The singing endpoints *)

Section SingFacts.

Context {World : Type}.

Variable get_engine : option str -> M World (Sing.SingEngine World).
Variable get_core : option str -> M World CoreAdapter.

(** X12: a query [sing_frame_audio_query] returns holds the phonemes, the
    pitch and the volume the engine computed for the score, the volume
    scale 1, no stereo and the default sampling rate of the core; and
    [frame_synthesis] of that query writes the engine's waveform at this
    very rate. *)
Theorem frame_synthesis_of_sing_frame_audio_query score style_id
    core_version style_id' core_version' w query w1 response w2 :
  Sing.sing_frame_audio_query get_engine get_core score style_id
    core_version w = (inr query, w1) ->
  Sing.frame_synthesis get_engine query style_id' core_version' w1
  = (inr response, w2) ->
  exists engine core wa wb engine' wd wave,
    get_engine core_version w = (inr engine, wa)
    /\ get_core core_version wa = (inr core, wb)
    /\ Sing.create_sing_phoneme_and_f0_and_volume engine score style_id wb
       = (inr (Sing.phonemes query, Sing.f0 query, Sing.volume query), w1)
    /\ Sing.volumeScale query = 1%float
    /\ Sing.outputStereo query = false
    /\ Sing.outputSamplingRate query = default_sampling_rate core
    /\ get_engine core_version' w1 = (inr engine', wd)
    /\ Sing.frame_synthsize_wave engine' query style_id' wd = (inr wave, w2)
    /\ response
       = {| body := WavFile {| data := wave;
                               samplerate := default_sampling_rate core |};
            media_type := py "audio/wav" |}.
Proof.
  unfold Sing.sing_frame_audio_query, Sing.frame_synthesis, bind.
  intros Hquery Hsynth.
  destruct (get_engine core_version w) as [[e|engine] wa] eqn:Hengine;
    [discriminate|].
  destruct (get_core core_version wa) as [[e|core] wb] eqn:Hcore;
    [discriminate|].
  destruct (Sing.create_sing_phoneme_and_f0_and_volume engine score
              style_id wb) as [[e|[[phonemes f0] volume]] wq] eqn:Hsing;
    [discriminate|].
  injection Hquery as <- <-.
  destruct (get_engine core_version' wq) as [[e|engine'] wd] eqn:Hengine';
    [discriminate|].
  destruct (Sing.frame_synthsize_wave engine' _ style_id' wd)
    as [[e|wave] we] eqn:Hwave; [discriminate|].
  injection Hsynth as <- <-.
  exists engine, core, wa, wb, engine', wd, wave.
  repeat (split; [first [reflexivity | assumption]|]). reflexivity.
Qed.

End SingFacts.

(** ** The speaker router *)

Section SpeakerRouterFacts.

Import SpeakerRouter.

Context {World Path : Type}.

Variable get_core : option str -> M World (CoreAdapter World).
Variable root_dir : Path.
Variable parse_speakers : str -> M World (list Speaker).
Variable filter_speakers_and_styles : list Speaker -> bool -> list Speaker.
Variable b64encode_str : bytes -> str.
Variable joinpath : Path -> str -> Path.
Variable read_text : Path -> FileError + str.
Variable read_bytes : Path -> FileError + bytes.
Variable exists_ : Path -> bool.

Lemma str_eqb_true a b : str_eqb a b = true <-> a = b.
Proof.
  unfold str_eqb. destruct (list_eq_dec N.eq_dec a b); split; congruence.
Qed.

Lemma find_speaker_first before speaker after uuid (w : World) :
  Forall (fun s => speaker_uuid s <> uuid) before ->
  speaker_uuid speaker = uuid ->
  find_speaker (before ++ speaker :: after) uuid w = (inr speaker, w).
Proof.
  intros Hbefore Hspeaker.
  induction Hbefore as [|s before Hs _ IH]; cbn [app find_speaker].
  - rewrite (proj2 (str_eqb_true _ _) Hspeaker). reflexivity.
  - destruct (str_eqb (speaker_uuid s) uuid) eqn:Heq; [|exact IH].
    apply str_eqb_true in Heq. contradiction.
Qed.

Lemma find_speaker_none speakers uuid (w : World) :
  Forall (fun s => speaker_uuid s <> uuid) speakers ->
  find_speaker speakers uuid w
  = (inl (HTTPException 404
            (DetailText (py "該当する話者が見つかりません"))), w).
Proof.
  intros H. induction H as [|s speakers Hs _ IH]; cbn [find_speaker].
  - reflexivity.
  - destruct (str_eqb (speaker_uuid s) uuid) eqn:Heq; [|exact IH].
    apply str_eqb_true in Heq. contradiction.
Qed.

(** X13: when no speaker of the kind asked for has the identifier,
    [_speaker_info] fails with the 404 response, whatever the files are:
    the identifier of the request reaches no path. *)
Theorem speaker_info_unknown_speaker uuid speaker_or_singer core_version
    core parsed w w1 w2 :
  get_core core_version w = (inr core, w1) ->
  parse_speakers (speakers core) w1 = (inr parsed, w2) ->
  Forall (fun s => speaker_uuid s <> uuid)
    (filter_speakers_and_styles parsed speaker_or_singer) ->
  _speaker_info get_core root_dir parse_speakers filter_speakers_and_styles
    b64encode_str joinpath read_text read_bytes exists_
    uuid speaker_or_singer core_version w
  = (inl (HTTPException 404
            (DetailText (py "該当する話者が見つかりません"))), w2).
Proof.
  intros Hcore Hparse Hnone. unfold _speaker_info.
  rewrite (bind_returns _ _ _ _ _ Hcore).
  rewrite (bind_returns _ _ _ _ _ Hparse).
  apply bind_raises. apply find_speaker_none. exact Hnone.
Qed.

Lemma read_voice_samples_reads speaker_path id js : forall samples,
  read_voice_samples b64encode_str joinpath read_bytes speaker_path id js
  = inr samples ->
  Forall2
    (fun j sample => exists content,
         read_bytes (voice_sample_path joinpath speaker_path id j)
         = inr content
         /\ sample = b64encode_str content)
    js samples.
Proof.
  induction js as [|j js IH]; intros samples H; cbn [read_voice_samples] in H.
  - injection H as <-. constructor.
  - destruct (read_bytes (voice_sample_path joinpath speaker_path id j))
      as [err|content] eqn:Hread; [discriminate|].
    destruct (read_voice_samples b64encode_str joinpath read_bytes
                speaker_path id js) as [err|samples'] eqn:Hrest;
      [discriminate|].
    injection H as <-. constructor; [|exact (IH _ eq_refl)].
    exists content. split; [exact Hread | reflexivity].
Qed.

Lemma read_style_info_reads speaker_path style info :
  read_style_info b64encode_str joinpath read_bytes exists_ speaker_path
    style = inr info ->
  SpeakerFiles.style_info_read joinpath b64encode_str read_bytes exists_
    speaker_path style info.
Proof.
  unfold read_style_info, SpeakerFiles.style_info_read. intros H.
  destruct (read_bytes (icon_path joinpath speaker_path (id style)))
    as [err|icon_bytes] eqn:Hicon; [discriminate|].
  destruct (exists_ (style_portrait_path joinpath speaker_path (id style)))
    eqn:Hexists.
  - destruct (read_bytes
                (style_portrait_path joinpath speaker_path (id style)))
      as [err|portrait_bytes] eqn:Hportrait; [discriminate|].
    destruct (read_voice_samples b64encode_str joinpath read_bytes
                speaker_path (id style) (range 3))
      as [err|samples] eqn:Hsamples; [discriminate|].
    injection H as <-. cbn [info_id icon portrait voice_samples].
    split; [reflexivity|]. split; [eauto|]. split; [eauto|].
    apply read_voice_samples_reads in Hsamples.
    inversion Hsamples as [|? s1 ? l1 (c1 & H1 & ->) Hr1]; subst.
    inversion Hr1 as [|? s2 ? l2 (c2 & H2 & ->) Hr2]; subst.
    inversion Hr2 as [|? s3 ? l3 (c3 & H3 & ->) Hr3]; subst.
    inversion Hr3; subst.
    exists c1, c2, c3. repeat split; assumption.
  - destruct (read_voice_samples b64encode_str joinpath read_bytes
                speaker_path (id style) (range 3))
      as [err|samples] eqn:Hsamples; [discriminate|].
    injection H as <-. cbn [info_id icon portrait voice_samples].
    split; [reflexivity|]. split; [eauto|]. split; [reflexivity|].
    apply read_voice_samples_reads in Hsamples.
    inversion Hsamples as [|? s1 ? l1 (c1 & H1 & ->) Hr1]; subst.
    inversion Hr1 as [|? s2 ? l2 (c2 & H2 & ->) Hr2]; subst.
    inversion Hr2 as [|? s3 ? l3 (c3 & H3 & ->) Hr3]; subst.
    inversion Hr3; subst.
    exists c1, c2, c3. repeat split; assumption.
Qed.

Lemma read_style_infos_reads speaker_path styles : forall infos,
  read_style_infos b64encode_str joinpath read_bytes exists_ speaker_path
    styles = inr infos ->
  Forall2
    (SpeakerFiles.style_info_read joinpath b64encode_str read_bytes exists_
       speaker_path)
    styles infos.
Proof.
  induction styles as [|style styles IH]; intros infos H;
    cbn [read_style_infos] in H.
  - injection H as <-. constructor.
  - destruct (read_style_info b64encode_str joinpath read_bytes exists_
                speaker_path style) as [err|info] eqn:Hinfo; [discriminate|].
    destruct (read_style_infos b64encode_str joinpath read_bytes exists_
                speaker_path styles) as [err|infos'] eqn:Hrest;
      [discriminate|].
    injection H as <-. constructor.
    + exact (read_style_info_reads _ _ _ Hinfo).
    + exact (IH _ eq_refl).
Qed.

Lemma speaker_info_found uuid speaker_or_singer core_version core parsed
    before speaker after w w1 w2 :
  get_core core_version w = (inr core, w1) ->
  parse_speakers (speakers core) w1 = (inr parsed, w2) ->
  filter_speakers_and_styles parsed speaker_or_singer
  = before ++ speaker :: after ->
  Forall (fun s => speaker_uuid s <> uuid) before ->
  speaker_uuid speaker = uuid ->
  _speaker_info get_core root_dir parse_speakers filter_speakers_and_styles
    b64encode_str joinpath read_text read_bytes exists_
    uuid speaker_or_singer core_version w
  = match
      read_speaker_info root_dir b64encode_str joinpath read_text read_bytes
        exists_ speaker uuid
    with
    | inr ret_data => (inr ret_data, w2)
    | inl FileNotFoundError =>
        (inl (HTTPException 500
                (DetailText (py "追加情報が見つかりませんでした"))), w2)
    | inl (OtherFileError message) => (inl (BackendError message), w2)
    end.
Proof.
  intros Hcore Hparse Hfilter Hbefore Hspeaker. unfold _speaker_info.
  rewrite (bind_returns _ _ _ _ _ Hcore).
  rewrite (bind_returns _ _ _ _ _ Hparse).
  rewrite Hfilter.
  rewrite (bind_returns _ _ _ _ _
             (find_speaker_first before speaker after uuid w2 Hbefore
                Hspeaker)).
  destruct (read_speaker_info root_dir b64encode_str joinpath read_text
              read_bytes exists_ speaker uuid) as [[|message]|ret_data];
    reflexivity.
Qed.

(** X14: the information [_speaker_info] returns for a speaker was read
    from the speaker's directory: the policy from [policy.md], the portrait
    from [portrait.png], and one entry per style, in the order of the
    styles, with the style's id, its icon from [icons/{id}.png], its
    portrait from [portraits/{id}.png] if that file exists and none
    otherwise, and exactly three voice samples, from
    [voice_samples/{id}_001.wav] to [{id}_003.wav]. *)
Theorem speaker_info_content uuid speaker_or_singer core_version core parsed
    before speaker after info w w1 w2 w' :
  get_core core_version w = (inr core, w1) ->
  parse_speakers (speakers core) w1 = (inr parsed, w2) ->
  filter_speakers_and_styles parsed speaker_or_singer
  = before ++ speaker :: after ->
  Forall (fun s => speaker_uuid s <> uuid) before ->
  speaker_uuid speaker = uuid ->
  _speaker_info get_core root_dir parse_speakers filter_speakers_and_styles
    b64encode_str joinpath read_text read_bytes exists_
    uuid speaker_or_singer core_version w = (inr info, w') ->
  let speaker_path := SpeakerFiles.speaker_path joinpath root_dir uuid in
  read_text (joinpath speaker_path (py "policy.md")) = inr (policy info)
  /\ (exists content,
         read_bytes (joinpath speaker_path (py "portrait.png")) = inr content
         /\ speaker_portrait info = b64encode_str content)
  /\ Forall2
       (SpeakerFiles.style_info_read joinpath b64encode_str read_bytes
          exists_ speaker_path)
       (styles speaker) (style_infos info).
Proof.
  intros Hcore Hparse Hfilter Hbefore Hspeaker Hrun speaker_path.
  rewrite (speaker_info_found _ _ _ _ _ _ _ _ _ _ _
             Hcore Hparse Hfilter Hbefore Hspeaker) in Hrun.
  unfold read_speaker_info in Hrun.
  fold (SpeakerFiles.speaker_path joinpath root_dir uuid) in Hrun.
  fold speaker_path in Hrun.
  destruct (read_text (joinpath speaker_path (py "policy.md")))
    as [[|m]|text] eqn:Hpolicy; [discriminate..|].
  destruct (read_bytes (joinpath speaker_path (py "portrait.png")))
    as [[|m]|content] eqn:Hportrait; [discriminate..|].
  destruct (read_style_infos b64encode_str joinpath read_bytes exists_
              speaker_path (styles speaker))
    as [[|m]|infos] eqn:Hinfos; [discriminate..|].
  injection Hrun as <- _. cbn [policy speaker_portrait style_infos].
  split; [reflexivity|]. split; [exists content; split; reflexivity|].
  exact (read_style_infos_reads _ _ _ Hinfos).
Qed.

Lemma read_voice_samples_error speaker_path id js err :
  read_voice_samples b64encode_str joinpath read_bytes speaker_path id js
  = inl err ->
  exists path, read_bytes path = inl err.
Proof.
  induction js as [|j js IH]; cbn [read_voice_samples]; [discriminate|].
  destruct (read_bytes (voice_sample_path joinpath speaker_path id j))
    as [err'|content] eqn:Hread.
  - intros H. injection H as <-. eauto.
  - destruct (read_voice_samples b64encode_str joinpath read_bytes
                speaker_path id js) as [err'|samples]; [|discriminate].
    intros H. injection H as <-. exact (IH eq_refl).
Qed.

Lemma read_style_infos_error speaker_path styles err :
  read_style_infos b64encode_str joinpath read_bytes exists_ speaker_path
    styles = inl err ->
  exists path, read_bytes path = inl err.
Proof.
  induction styles as [|style styles IH]; cbn [read_style_infos];
    [discriminate|].
  destruct (read_style_info b64encode_str joinpath read_bytes exists_
              speaker_path style) as [err'|info] eqn:Hinfo.
  - intros H. injection H as <-. clear IH.
    unfold read_style_info in Hinfo.
    destruct (read_bytes (icon_path joinpath speaker_path (id style)))
      as [e|icon_bytes] eqn:Hicon.
    { injection Hinfo as <-. eauto. }
    destruct (exists_ (style_portrait_path joinpath speaker_path (id style))).
    + destruct (read_bytes
                  (style_portrait_path joinpath speaker_path (id style)))
        as [e|portrait_bytes] eqn:Hportrait.
      { injection Hinfo as <-. eauto. }
      destruct (read_voice_samples b64encode_str joinpath read_bytes
                  speaker_path (id style) (range 3))
        as [e|samples] eqn:Hsamples; [|discriminate].
      injection Hinfo as <-.
      exact (read_voice_samples_error _ _ _ _ Hsamples).
    + destruct (read_voice_samples b64encode_str joinpath read_bytes
                  speaker_path (id style) (range 3))
        as [e|samples] eqn:Hsamples; [|discriminate].
      injection Hinfo as <-.
      exact (read_voice_samples_error _ _ _ _ Hsamples).
  - destruct (read_style_infos b64encode_str joinpath read_bytes exists_
                speaker_path styles) as [err'|infos]; [|discriminate].
    intros H. injection H as <-. exact (IH eq_refl).
Qed.

(** An error of the reading is the error of one read. *)
Lemma read_speaker_info_error speaker uuid err :
  read_speaker_info root_dir b64encode_str joinpath read_text read_bytes
    exists_ speaker uuid = inl err ->
  (exists path, read_text path = inl err)
  \/ (exists path, read_bytes path = inl err).
Proof.
  unfold read_speaker_info.
  destruct (read_text _) as [e|text] eqn:Hpolicy.
  { intros H. injection H as <-. left. eauto. }
  destruct (read_bytes (joinpath _ (py "portrait.png")))
    as [e|content] eqn:Hportrait.
  { intros H. injection H as <-. right. eauto. }
  destruct (read_style_infos _ _ _ _ _ _) as [e|infos] eqn:Hinfos;
    [|discriminate].
  intros H. injection H as <-. right.
  exact (read_style_infos_error _ _ _ Hinfos).
Qed.

Lemma read_voice_samples_files speaker_path id js samples :
  read_voice_samples b64encode_str joinpath read_bytes speaker_path id js
  = inr samples ->
  Forall (fun path => exists content, read_bytes path = inr content)
    (map (voice_sample_path joinpath speaker_path id) js).
Proof.
  intros H. apply read_voice_samples_reads in H.
  induction H as [|j sample js samples (content & Hread & _) _ IH];
    cbn [map]; constructor; eauto.
Qed.

Lemma read_style_infos_files speaker_path styles : forall infos,
  read_style_infos b64encode_str joinpath read_bytes exists_ speaker_path
    styles = inr infos ->
  Forall (fun path => exists content, read_bytes path = inr content)
    (flat_map (SpeakerFiles.style_files joinpath speaker_path) styles).
Proof.
  induction styles as [|style styles IH]; intros infos H;
    cbn [read_style_infos flat_map] in *.
  - constructor.
  - destruct (read_style_info b64encode_str joinpath read_bytes exists_
                speaker_path style) as [err|info] eqn:Hinfo; [discriminate|].
    destruct (read_style_infos b64encode_str joinpath read_bytes exists_
                speaker_path styles) as [err|infos'] eqn:Hrest;
      [discriminate|].
    apply Forall_app. split; [|exact (IH _ eq_refl)].
    unfold read_style_info in Hinfo. unfold SpeakerFiles.style_files.
    destruct (read_bytes (icon_path joinpath speaker_path (id style)))
      as [e|icon_bytes] eqn:Hicon; [discriminate|].
    constructor; [eauto|].
    destruct (if exists_ _ then _ else _) as [e|style_portrait];
      [discriminate|].
    destruct (read_voice_samples b64encode_str joinpath read_bytes
                speaker_path (id style) (range 3))
      as [e|samples] eqn:Hsamples; [discriminate|].
    exact (read_voice_samples_files _ _ _ _ Hsamples).
Qed.

Lemma read_voice_samples_succeeds speaker_path id js :
  Forall (fun path => exists content, read_bytes path = inr content)
    (map (voice_sample_path joinpath speaker_path id) js) ->
  exists samples,
    read_voice_samples b64encode_str joinpath read_bytes speaker_path id js
    = inr samples.
Proof.
  induction js as [|j js IH]; cbn [map read_voice_samples]; intros H.
  - eauto.
  - inversion H as [|? ? (content & Hread) Hrest]; subst.
    destruct (IH Hrest) as (samples & Hsamples).
    rewrite Hread, Hsamples. eauto.
Qed.

Lemma read_style_infos_succeeds speaker_path styles :
  Forall (fun path => exists content, read_bytes path = inr content)
    (flat_map (SpeakerFiles.style_files joinpath speaker_path) styles) ->
  Forall
    (fun style =>
       exists_ (style_portrait_path joinpath speaker_path (id style)) = true ->
       exists content,
         read_bytes (style_portrait_path joinpath speaker_path (id style))
         = inr content)
    styles ->
  exists infos,
    read_style_infos b64encode_str joinpath read_bytes exists_ speaker_path
      styles = inr infos.
Proof.
  induction styles as [|style styles IH];
    cbn [flat_map read_style_infos]; intros Hfiles Hportraits.
  - eauto.
  - apply Forall_app in Hfiles. destruct Hfiles as [Hstyle Hrest].
    inversion Hportraits as [|? ? Hportrait Hportraits']; subst.
    destruct (IH Hrest Hportraits') as (infos & Hinfos).
    unfold SpeakerFiles.style_files in Hstyle.
    inversion Hstyle as [|? ? (icon_bytes & Hicon) Hsamples]; subst.
    destruct (read_voice_samples_succeeds speaker_path (id style) (range 3)
                Hsamples) as (samples & Hread).
    unfold read_style_info. rewrite Hicon, Hread.
    destruct (exists_ (style_portrait_path joinpath speaker_path (id style))).
    + destruct (Hportrait eq_refl) as (content & ->).
      rewrite Hinfos. eauto.
    + rewrite Hinfos. eauto.
Qed.

(** X15: for a speaker that is found, when a file cannot be read for any
    other reason than its absence, a missing [policy.md], [portrait.png],
    icon or voice sample makes [_speaker_info] fail with the 500 response;
    a missing portrait of a style does not: when these files can be read,
    and the portraits of the styles that exist as well, the information is
    returned, the styles without a portrait file having none. *)
Theorem speaker_info_missing_file uuid speaker_or_singer core_version core
    parsed before speaker after w w1 w2 :
  get_core core_version w = (inr core, w1) ->
  parse_speakers (speakers core) w1 = (inr parsed, w2) ->
  filter_speakers_and_styles parsed speaker_or_singer
  = before ++ speaker :: after ->
  Forall (fun s => speaker_uuid s <> uuid) before ->
  speaker_uuid speaker = uuid ->
  ((forall path err, read_text path = inl err -> err = FileNotFoundError) ->
   (forall path err, read_bytes path = inl err -> err = FileNotFoundError) ->
   (exists err,
       read_text (SpeakerFiles.policy_file joinpath root_dir uuid) = inl err)
   \/ Exists (fun path => exists err, read_bytes path = inl err)
        (SpeakerFiles.binary_files joinpath root_dir speaker uuid) ->
   _speaker_info get_core root_dir parse_speakers filter_speakers_and_styles
     b64encode_str joinpath read_text read_bytes exists_
     uuid speaker_or_singer core_version w
   = (inl (HTTPException 500
             (DetailText (py "追加情報が見つかりませんでした"))), w2))
  /\ ((exists text,
          read_text (SpeakerFiles.policy_file joinpath root_dir uuid)
          = inr text) ->
      Forall (fun path => exists content, read_bytes path = inr content)
        (SpeakerFiles.binary_files joinpath root_dir speaker uuid) ->
      Forall
        (fun style =>
           let path :=
             style_portrait_path joinpath
               (SpeakerFiles.speaker_path joinpath root_dir uuid) (id style)
           in
           exists_ path = true ->
           exists content, read_bytes path = inr content)
        (styles speaker) ->
      exists info,
        _speaker_info get_core root_dir parse_speakers
          filter_speakers_and_styles b64encode_str joinpath read_text
          read_bytes exists_ uuid speaker_or_singer core_version w
        = (inr info, w2)
        /\ Forall2
             (fun style style_info =>
                exists_
                  (style_portrait_path joinpath
                     (SpeakerFiles.speaker_path joinpath root_dir uuid)
                     (id style)) = false ->
                portrait style_info = None)
             (styles speaker) (style_infos info)).
Proof.
  intros Hcore Hparse Hfilter Hbefore Hspeaker.
  rewrite (speaker_info_found _ _ _ _ _ _ _ _ _ _ _
             Hcore Hparse Hfilter Hbefore Hspeaker).
  split.
  - intros Htext Hbytes Hmissing.
    destruct (read_speaker_info root_dir b64encode_str joinpath read_text
                read_bytes exists_ speaker uuid) as [err|ret_data] eqn:Hread.
    + destruct (read_speaker_info_error _ _ _ Hread)
        as [(path & Hpath)|(path & Hpath)].
      * rewrite (Htext _ _ Hpath). reflexivity.
      * rewrite (Hbytes _ _ Hpath). reflexivity.
    + exfalso. unfold read_speaker_info in Hread.
      fold (SpeakerFiles.speaker_path joinpath root_dir uuid) in Hread.
      fold (SpeakerFiles.policy_file joinpath root_dir uuid) in Hread.
      destruct (read_text (SpeakerFiles.policy_file joinpath root_dir uuid))
        as [e|text] eqn:Hpolicy; [discriminate|].
      destruct (read_bytes
                  (joinpath
                     (SpeakerFiles.speaker_path joinpath root_dir uuid)
                     (py "portrait.png")))
        as [e|content] eqn:Hportrait; [discriminate|].
      destruct (read_style_infos b64encode_str joinpath read_bytes exists_
                  (SpeakerFiles.speaker_path joinpath root_dir uuid)
                  (styles speaker))
        as [e|infos] eqn:Hinfos; [discriminate|].
      destruct Hmissing as [(err & Herr)|Hexists]; [discriminate|].
      apply Exists_exists in Hexists.
      destruct Hexists as (path & Hin & err & Herr).
      assert (Hall : Forall
                       (fun path => exists content,
                            read_bytes path = inr content)
                       (SpeakerFiles.binary_files joinpath root_dir speaker
                          uuid)).
      { unfold SpeakerFiles.binary_files. constructor; [eauto|].
        exact (read_style_infos_files _ _ _ Hinfos). }
      rewrite Forall_forall in Hall.
      destruct (Hall path Hin) as (content' & Hok). congruence.
  - intros (text & Hpolicy) Hfiles Hportraits.
    unfold SpeakerFiles.binary_files in Hfiles.
    inversion Hfiles as [|? ? (content & Hportrait) Hstyles]; subst.
    destruct (read_style_infos_succeeds _ _ Hstyles Hportraits)
      as (infos & Hinfos).
    unfold read_speaker_info.
    fold (SpeakerFiles.speaker_path joinpath root_dir (speaker_uuid speaker)).
    fold (SpeakerFiles.policy_file joinpath root_dir (speaker_uuid speaker)).
    rewrite Hpolicy, Hportrait, Hinfos.
    eexists. split; [reflexivity|]. cbn [style_infos].
    pose proof (read_style_infos_reads _ _ _ Hinfos) as Hread.
    eapply Forall2_impl; [|exact Hread].
    intros style style_info (_ & _ & Hopt & _) Hmissing.
    cbv zeta in Hopt. rewrite Hmissing in Hopt. exact Hopt.
Qed.

End SpeakerRouterFacts.

(** ** Further concrete runs *)

Section MoreRuns.

Lemma multi_synthesis_returns_uniform_run :
  exists waves,
    List.length waves = 2%nat
    /\ Batch.render_all Sample.engine 3
         [Sample.query 1 24000; Sample.query 2 24000] 0%nat
       = (inr waves, 2%nat).
Proof.
  destruct (multi_synthesis_returns_uniform Sample.get_engine
              [Sample.query 1 24000; Sample.query 2 24000] 3 None 0%nat
              {| body := ZipFile
                           (Batch.archive 1 [[1%float]; [2%float]] 24000);
                 media_type := py "application/zip" |} 2%nat eq_refl)
    as (q0 & qs & engine & w1 & waves & Hq & Hengine & _ & Hwaves & Hlen & _).
  injection Hengine as <- <-.
  exists waves. split; [exact Hlen | exact Hwaves].
Defined.

Lemma multi_synthesis_renders_before_refusing_run :
  Router.multi_synthesis Sample.get_engine
    [Sample.query 1 24000; Sample.query 2 24000; Sample.query 3 22050]
    3 None 0%nat
  = (inl (HTTPException 422
            (DetailText (py "サンプリングレートが異なるクエリがあります"))),
     2%nat).
Proof.
  apply (multi_synthesis_renders_before_refusing Sample.get_engine
           (Sample.query 1 24000)
           [Sample.query 2 24000; Sample.query 3 22050]
           [Sample.query 1 24000; Sample.query 2 24000]
           (Sample.query 3 22050) [] 3 None Sample.engine 0%nat 0%nat
           [[1%float]; [2%float]] 2%nat);
    try reflexivity.
  - repeat constructor.
  - discriminate.
Defined.

Lemma multi_synthesis_engine_failure_first_run :
  Router.multi_synthesis Sample.get_mono_engine
    [Sample.query 1 24000; Sample.stereo_query 24000; Sample.query 1 22050]
    3 None 0%nat
  = (inl (BackendError (py "stereo")), 1%nat).
Proof.
  apply (multi_synthesis_engine_failure_first Sample.get_mono_engine
           (Sample.query 1 24000)
           [Sample.stereo_query 24000; Sample.query 1 22050]
           [Sample.query 1 24000] (Sample.stereo_query 24000)
           [Sample.query 1 22050] 3 None Sample.mono_engine 0%nat 0%nat
           [[1%float]] 1%nat (BackendError (py "stereo")) 1%nat);
    try reflexivity.
  repeat constructor.
Defined.

Lemma multi_synthesis_entry_names_run :
  NoDup [py "001.wav"; py "002.wav"]
  /\ EntryName.entry_index (py "002.wav") = 2%N.
Proof.
  destruct (multi_synthesis_entry_names Sample.get_engine
              [Sample.query 1 24000; Sample.query 2 24000] 3 None 0%nat
              (Batch.archive 1 [[1%float]; [2%float]] 24000)
              (py "application/zip") 2%nat eq_refl) as [Hnodup Hindex].
  split; [exact Hnodup|].
  exact (Hindex 1%nat (py "002.wav")
           {| data := [2%float]; samplerate := 24000 |} eq_refl).
Defined.

Lemma audio_query_fails_by_propagation_run :
  exists engine w1,
    Sample.get_engine None 0%nat = (inr engine, w1)
    /\ SampleMore.get_no_core None w1
       = (inl (HTTPException 422 (DetailText (py "不明なバージョンです"))),
          0%nat).
Proof.
  destruct (audio_query_fails_by_propagation Sample.get_engine
              SampleMore.get_no_core KanaConverter.create_kana
              Sample.notation 3 None 0%nat
              (HTTPException 422 (DetailText (py "不明なバージョンです")))
              0%nat eq_refl)
    as [Hengine|[(engine & w1 & Hengine & Hcore)|Hrest]].
  - discriminate Hengine.
  - exists engine, w1. split; assumption.
  - destruct Hrest as (engine & w1 & core & w2 & _ & Hcore & _).
    discriminate Hcore.
Defined.

Lemma cancellable_synthesis_asks_engine_run :
  Router.cancellable_synthesis (Some SampleMore.cancellable_engine)
    (Sample.query 1 24000) 7%nat 3 None 0%nat
  = (inr {| body := FileAt (py "/tmp/tmp0.wav");
            media_type := py "audio/wav" |}, 0%nat)
  /\ Router.cancellable_synthesis (Some SampleMore.cancellable_engine)
       (Sample.query 1 24000) 7%nat 3 (Some (py "0.0.0")) 0%nat
     = (inl (HTTPException 422 (DetailText (py "不明なバージョンです"))),
        0%nat).
Proof.
  split.
  - exact (cancellable_synthesis_asks_engine SampleMore.cancellable_engine
             (Sample.query 1 24000) 7%nat 3 None 0%nat
             (inr (py "/tmp/tmp0.wav")) 0%nat eq_refl).
  - exact (cancellable_synthesis_asks_engine SampleMore.cancellable_engine
             (Sample.query 1 24000) 7%nat 3 (Some (py "0.0.0")) 0%nat
             (inr []) 0%nat eq_refl).
Defined.

Lemma multi_synthesis_of_audio_queries_run :
  exists waves w',
    Router.multi_synthesis Sample.get_engine
      [SampleMore.audio_query_of Sample.notation 3 None;
       SampleMore.audio_query_of (py "ネ'") 8 (Some (py "0.14.0"))]
      3 None 0%nat
    = (inr {| body := ZipFile (Batch.archive 1 waves 24000);
              media_type := py "application/zip" |}, w')
    /\ List.length waves = 2%nat.
Proof.
  apply (multi_synthesis_of_audio_queries Sample.get_engine Sample.get_core
           KanaConverter.create_kana 24000
           (SampleMore.audio_query_of Sample.notation 3 None)
           [SampleMore.audio_query_of (py "ネ'") 8 (Some (py "0.14.0"))]
           3 None Sample.engine 0%nat 0%nat).
  - intros version wa core wb H. injection H as <- _. reflexivity.
  - constructor; [|constructor; [|constructor]].
    + exists Sample.notation, 3, None, 0%nat, 0%nat. reflexivity.
    + exists (py "ネ'"), 8, (Some (py "0.14.0")), 0%nat, 0%nat.
      reflexivity.
  - reflexivity.
  - exact sample_engine_renders.
Defined.

Lemma audio_query_from_preset_load_failure_run :
  Router.audio_query_from_preset Sample.get_engine Sample.get_core
    SampleMore.broken_preset_manager KanaConverter.create_kana
    Sample.notation 1 None 0%nat
  = (inl (HTTPException 422 (DetailText (py "broken"))), 0%nat).
Proof.
  exact (audio_query_from_preset_load_failure Sample.get_engine
           Sample.get_core KanaConverter.create_kana
           SampleMore.broken_preset_manager Sample.notation 1 None
           Sample.engine Sample.core (py "broken") 0%nat 0%nat 0%nat 0%nat
           eq_refl eq_refl eq_refl).
Defined.

Lemma preset_routes_guarded_run :
  PresetRouter.add_preset_route SampleStore.preset_manager
    SampleStore.mutable_api_disabled (Sample.preset 3 1) Sample.presets
  = (inl (HTTPException 403 (DetailText (py "disabled"))), Sample.presets)
  /\ PresetRouter.delete_preset_route SampleStore.preset_manager
       SampleStore.mutable_api_disabled 1 Sample.presets
     = (inl (HTTPException 403 (DetailText (py "disabled"))),
        Sample.presets).
Proof.
  destruct (preset_routes_guarded SampleStore.preset_manager
              SampleStore.mutable_api_disabled (Sample.preset 3 1) 1
              Sample.presets
              (HTTPException 403 (DetailText (py "disabled")))
              Sample.presets eq_refl) as (Hadd & _ & Hdelete).
  split; assumption.
Defined.

Lemma preset_endpoints_translate_PresetError_run :
  PresetRouter.update_preset_route SampleStore.preset_manager
    SampleStore.mutable_api_enabled (Sample.preset 9 1) Sample.presets
  = (inl (HTTPException 422 (DetailText (py "no such preset"))),
     Sample.presets)
  /\ PresetRouter.delete_preset_route SampleStore.preset_manager
       SampleStore.mutable_api_enabled 1 Sample.presets
     = (inr {| status_code := 204 |}, [Sample.preset 2 1.25]).
Proof.
  destruct (preset_endpoints_translate_PresetError
              SampleStore.preset_manager SampleStore.mutable_api_enabled
              (Sample.preset 9 1) 1 Sample.presets Sample.presets eq_refl)
    as (_ & _ & Hupdate & Hdelete).
  split.
  - exact (Hupdate (inl (PresetError (py "no such preset"))) Sample.presets
             eq_refl).
  - exact (Hdelete (inr tt) [Sample.preset 2 1.25] eq_refl).
Defined.

Lemma setting_post_then_get_run :
  SettingRouter.setting_get (Request := nat) SampleSetting.value
    SampleSetting.setting_loader SampleSetting.engine_manifest_data 7%nat
    (Some {| SettingRouter.cors_policy_mode := true;
             SettingRouter.allow_origin := None |})
  = (inr {| SettingRouter.template := py "ui.html";
            SettingRouter.context_request := 7%nat;
            SettingRouter.context_brand_name := py "VOICEVOX";
            SettingRouter.context_cors_policy_mode := py "all";
            SettingRouter.context_allow_origin := [] |},
     Some {| SettingRouter.cors_policy_mode := true;
             SettingRouter.allow_origin := None |}).
Proof.
  exact (proj2 (proj1 (setting_post_then_get (Request := nat)
                         SampleSetting.value SampleSetting.setting_loader
                         SampleSetting.engine_manifest_data
                         SampleSetting.mutable_api_enabled true None 7%nat
                         None None _ _)
                  eq_refl eq_refl eq_refl)).
Defined.

Lemma frame_synthesis_of_sing_frame_audio_query_run :
  exists core wave,
    Sample.get_core None 0%nat = (inr core, 0%nat)
    /\ Sing.frame_synthsize_wave SampleMore.sing_engine
         {| Sing.f0 := [440%float];
            Sing.volume := [0.5%float];
            Sing.phonemes := [];
            Sing.volumeScale := 1;
            Sing.outputSamplingRate := 24000;
            Sing.outputStereo := false |} 3 0%nat
       = (inr wave, 1%nat)
    /\ {| body := WavFile {| data := [440%float]; samplerate := 24000 |};
          media_type := py "audio/wav" |}
       = {| body := WavFile {| data := wave;
                               samplerate := default_sampling_rate core |};
            media_type := py "audio/wav" |}.
Proof.
  destruct (frame_synthesis_of_sing_frame_audio_query
              SampleMore.get_sing_engine Sample.get_core [] 3 None 3 None
              0%nat
              {| Sing.f0 := [440%float];
                 Sing.volume := [0.5%float];
                 Sing.phonemes := [];
                 Sing.volumeScale := 1;
                 Sing.outputSamplingRate := 24000;
                 Sing.outputStereo := false |}
              0%nat
              {| body := WavFile {| data := [440%float];
                                    samplerate := 24000 |};
                 media_type := py "audio/wav" |}
              1%nat eq_refl eq_refl)
    as (engine & core & wa & wb & engine' & wd & wave
        & Hengine & Hcore & _ & _ & _ & _ & Hengine' & Hwave & Hresponse).
  injection Hengine as _ <-. injection Hengine' as <- <-.
  exists core, wave.
  split; [injection Hcore as <- _; reflexivity|]. split; [exact Hwave|].
  exact Hresponse.
Defined.

Lemma speaker_info_unknown_speaker_run :
  SampleSpeakers.speaker_info SampleSpeakers.files (py "../../etc") tt
  = (inl (HTTPException 404
            (DetailText (py "該当する話者が見つかりません"))), tt).
Proof.
  apply (speaker_info_unknown_speaker SampleSpeakers.get_core (py "root")
           SampleSpeakers.parse_speakers
           SampleSpeakers.filter_speakers_and_styles
           SampleSpeakers.b64encode_str SampleSpeakers.joinpath
           (SampleSpeakers.read_bytes SampleSpeakers.files)
           (SampleSpeakers.read_bytes SampleSpeakers.files)
           (SampleSpeakers.exists_ SampleSpeakers.files)
           (py "../../etc") true None SampleSpeakers.core
           [SampleSpeakers.speaker] tt tt tt eq_refl eq_refl).
  repeat constructor. discriminate.
Defined.

Lemma speaker_info_content_run :
  exists info,
    SampleSpeakers.speaker_info SampleSpeakers.files (py "7ffcb7ce") tt
    = (inr info, tt)
    /\ SpeakerRouter.policy info = py "policy"
    /\ Forall2
         (SpeakerFiles.style_info_read SampleSpeakers.joinpath
            SampleSpeakers.b64encode_str
            (SampleSpeakers.read_bytes SampleSpeakers.files)
            (SampleSpeakers.exists_ SampleSpeakers.files)
            (py "root/speaker_info/7ffcb7ce"))
         [{| SpeakerRouter.id := 2 |}] (SpeakerRouter.style_infos info).
Proof.
  eexists. split; [reflexivity|].
  destruct (speaker_info_content SampleSpeakers.get_core (py "root")
              SampleSpeakers.parse_speakers
              SampleSpeakers.filter_speakers_and_styles
              SampleSpeakers.b64encode_str SampleSpeakers.joinpath
              (SampleSpeakers.read_bytes SampleSpeakers.files)
              (SampleSpeakers.read_bytes SampleSpeakers.files)
              (SampleSpeakers.exists_ SampleSpeakers.files)
              (py "7ffcb7ce") true None SampleSpeakers.core
              [SampleSpeakers.speaker] [] SampleSpeakers.speaker []
              _ tt tt tt tt eq_refl eq_refl eq_refl (Forall_nil _) eq_refl
              eq_refl)
    as (Hpolicy & _ & Hstyles).
  split; [reflexivity | exact Hstyles].
Defined.

Lemma sample_files_readable fs path err :
  SampleSpeakers.read_bytes fs path = inl err ->
  err = SpeakerRouter.FileNotFoundError.
Proof.
  unfold SampleSpeakers.read_bytes.
  destruct (SampleSpeakers.lookup fs path); congruence.
Qed.

(** Without the last voice sample the request fails; without the portrait
    of the style, which the files do not have, it succeeds. *)
Lemma speaker_info_missing_file_run :
  SampleSpeakers.speaker_info (removelast SampleSpeakers.files)
    (py "7ffcb7ce") tt
  = (inl (HTTPException 500
            (DetailText (py "追加情報が見つかりませんでした"))), tt)
  /\ exists info,
       SampleSpeakers.speaker_info SampleSpeakers.files (py "7ffcb7ce") tt
       = (inr info, tt)
       /\ Forall2
            (fun style style_info =>
               SampleSpeakers.exists_ SampleSpeakers.files
                 (SpeakerRouter.style_portrait_path SampleSpeakers.joinpath
                    (py "root/speaker_info/7ffcb7ce")
                    (SpeakerRouter.id style)) = false ->
               SpeakerRouter.portrait style_info = None)
            [{| SpeakerRouter.id := 2 |}] (SpeakerRouter.style_infos info).
Proof.
  split.
  - apply (proj1 (speaker_info_missing_file SampleSpeakers.get_core
                    (py "root") SampleSpeakers.parse_speakers
                    SampleSpeakers.filter_speakers_and_styles
                    SampleSpeakers.b64encode_str SampleSpeakers.joinpath
                    (SampleSpeakers.read_bytes
                       (removelast SampleSpeakers.files))
                    (SampleSpeakers.read_bytes
                       (removelast SampleSpeakers.files))
                    (SampleSpeakers.exists_
                       (removelast SampleSpeakers.files))
                    (py "7ffcb7ce") true None SampleSpeakers.core
                    [SampleSpeakers.speaker] [] SampleSpeakers.speaker []
                    tt tt tt eq_refl eq_refl eq_refl (Forall_nil _)
                    eq_refl)).
    + apply sample_files_readable.
    + apply sample_files_readable.
    + right. apply Exists_cons_tl, Exists_cons_tl, Exists_cons_tl,
        Exists_cons_tl, Exists_cons_hd.
      exists SpeakerRouter.FileNotFoundError. reflexivity.
  - apply (proj2 (speaker_info_missing_file SampleSpeakers.get_core
                    (py "root") SampleSpeakers.parse_speakers
                    SampleSpeakers.filter_speakers_and_styles
                    SampleSpeakers.b64encode_str SampleSpeakers.joinpath
                    (SampleSpeakers.read_bytes SampleSpeakers.files)
                    (SampleSpeakers.read_bytes SampleSpeakers.files)
                    (SampleSpeakers.exists_ SampleSpeakers.files)
                    (py "7ffcb7ce") true None SampleSpeakers.core
                    [SampleSpeakers.speaker] [] SampleSpeakers.speaker []
                    tt tt tt eq_refl eq_refl eq_refl (Forall_nil _)
                    eq_refl)).
    + exists (py "policy"). reflexivity.
    + repeat constructor; eexists; reflexivity.
    + constructor; [|constructor]. cbv zeta. intros H.
      vm_compute in H. discriminate H.
Defined.

Lemma synthesis_of_audio_query_run :
  exists wave,
    synthesize_wave Sample.engine
      (SampleMore.audio_query_of Sample.notation 3 None) 3 (Some true) 0%nat
    = (inr wave, 1%nat)
    /\ {| body := WavFile {| data := [1%float]; samplerate := 24000 |};
          media_type := py "audio/wav" |}
       = {| body := WavFile {| data := wave; samplerate := 24000 |};
            media_type := py "audio/wav" |}.
Proof.
  destruct (synthesis_of_audio_query Sample.get_engine Sample.get_core
              KanaConverter.create_kana Sample.notation 3 None 3 true None
              0%nat (SampleMore.audio_query_of Sample.notation 3 None)
              0%nat
              {| body := WavFile {| data := [1%float];
                                    samplerate := 24000 |};
                 media_type := py "audio/wav" |}
              1%nat eq_refl eq_refl)
    as (core & wa & wb & engine & wc & wave
        & Hcore & Hengine & Hwave & Hresponse).
  injection Hengine as <- <-. injection Hcore as <- _.
  exists wave. split; [exact Hwave | exact Hresponse].
Defined.

End MoreRuns.
